(** * cloudroast: the object-storage fixture and the update-image scenarios

    A shallow embedding of

    - [cloudroast/objectstorage/fixtures.py]: the feature resolver
      [ObjectStorageFixture.get_features] and the gate
      [ObjectStorageFixture.required_features];
    - [cloudroast/images/v2/functional/test_update_image_positive.py]: the
      scenario [test_update_image_remove_additional_property].

    Python strings are modelled as [string], read as texts over the code
    points below 256, lists of tokens as [list string], Python sets as
    [gset string].  Exceptions are values of
    [exn]; a call either returns or raises ([result]).  The class-level
    caches of the [memoized] decorator and the number of swift-info requests
    sent so far form the explicit [state] threaded through every call. *)

From Stdlib Require Import Ascii.
From stdpp Require Import gmap strings list pretty.

Open Scope string_scope.

(** ** Python primitives used by the fixture *)

Module Py.

(** [c.isspace()] for a character of a [unicode] text: the blank, the
    controls U+0009 to U+000D and the separators U+001C to U+001F, the next
    line control U+0085 and the no-break space U+00A0 (the whitespace
    beyond U+00FF is outside the code points modelled). *)
Definition isspace (c : Ascii.ascii) : bool :=
  match c with
  | "009" | "010" | "011" | "012" | "013"
  | "028" | "029" | "030" | "031" | " "
  | "133" | "160" => true
  | _ => false
  end%char.

(** [s.split()] without arguments on a [unicode] text, as in
    [unicode(features).split()] and in the split of the joined features:
    the words of [s], separated by runs of whitespace; leading and trailing
    whitespace yields no empty word.  [cur] is the word being scanned.
    Every string is read as a [unicode] text, so [unicode(s)] is [s]. *)
Fixpoint split_go (cur : string) (s : string) : list string :=
  match s with
  | EmptyString => if bool_decide (cur = "") then [] else [cur]
  | String c s' =>
      if isspace c
      then (if bool_decide (cur = "") then split_go "" s'
            else cur :: split_go "" s')
      else split_go (cur +:+ String c "") s'
  end.

Definition split (s : string) : list string := split_go "" s.

(** [sep.join(l)] *)
Definition join (sep : string) (l : list string) : string :=
  String.concat sep l.

(** [l.index(x)]: position of the first occurrence; [None] stands for the
    [ValueError] raised when [x] does not occur. *)
Fixpoint index (x : string) (l : list string) : option nat :=
  match l with
  | [] => None
  | y :: l' => if bool_decide (y = x) then Some 0 else S <$> index x l'
  end.

(** Iterating over a string yields its characters as one-letter strings. *)
Fixpoint chars (s : string) : list string :=
  match s with
  | EmptyString => []
  | String c s' => String c "" :: chars s'
  end.

(** A value that is either a string or a list of strings: what
    [split_features] returns. *)
Inductive value :=
| Str (s : string)
| List (l : list string).

(** [v == s] for a string [s]: a list never equals a string. *)
Definition eq_str (v : value) (s : string) : bool :=
  match v with
  | Str t => bool_decide (t = s)
  | List _ => false
  end.

(** The items produced by iterating over [v] ([for x in v], [set(v)]). *)
Definition iter (v : value) : list string :=
  match v with
  | Str s => chars s
  | List l => l
  end.

(** [list(X)] for a set [X] enumerates it in the order of the hash table,
    which the language leaves unspecified: any enumeration without
    repetition is possible. *)
Class SetOrder := {
  list_of_set : gset string → list string;
  list_of_set_perm : ∀ X, list_of_set X ≡ₚ elements X
}.

(** A token: a non-empty string without whitespace. *)
Fixpoint no_space (s : string) : bool :=
  match s with
  | EmptyString => true
  | String c s' => negb (isspace c) && no_space s'
  end.

Definition token (w : string) : Prop := w ≠ "" ∧ no_space w = true.

End Py.

(** The enumeration of [gset] is one possible order. *)
#[export] Instance elements_order : Py.SetOrder :=
  {| Py.list_of_set := elements; Py.list_of_set_perm := λ X, reflexivity _ |}.

(** ** Exceptions and results *)

Inductive exn :=
| SwiftInfoError (message : string)
| AssertionError (message : string)
| Exception (class message : string).

(** [e.message] *)
Definition message (e : exn) : string :=
  match e with
  | SwiftInfoError m => m
  | AssertionError m => m
  | Exception _ m => m
  end.

Inductive result (A : Type) :=
| Return (a : A)
| Raise (e : exn).
Arguments Return {A} a.
Arguments Raise {A} e.

(** ** The object-storage fixture *)

Module ObjectStorage.

(** The attributes of [ObjectStorageAPIConfig] read by the fixture.  The
    class lives in the client library; its two sentinel constants and the
    three configured values are taken as given. *)
Record ObjectStorageAPIConfig := {
  ALL_FEATURES : string;
  NO_FEATURES : string;
  use_swift_info : bool;
  features : string;
  excluded_features : string
}.

Record auth_data := {
  storage_url : string;
  auth_token : string
}.

(** What lies outside the fixture.

    [get_features] calls [ObjectStorageFixture.get_auth_data()], but the
    body of the class defines no attribute of that name: the lookup goes on
    to the base classes, which belong to the test driver.
    [inherited_get_auth_data] is what they contribute: [None] when no base
    class has the method, which is the driver as it is, or the outcome of
    the call when one supplies it.

    [behaviors_get_swift_features] is the server's answer to the swift-info
    request sent by [behaviors.get_swift_features()] through a client built
    from the authentication data. *)
Record World := {
  inherited_get_auth_data : option (result auth_data);
  behaviors_get_swift_features : auth_data → result string
}.

Definition no_get_auth_data : exn :=
  Exception "AttributeError"
    "type object 'ObjectStorageFixture' has no attribute 'get_auth_data'".

(** [ObjectStorageFixture.get_auth_data()]: an [AttributeError] unless a
    base class supplies the method. *)
Definition get_auth_data (w : World) : result auth_data :=
  match inherited_get_auth_data w with
  | Some r => r
  | None => Raise no_get_auth_data
  end.

(** What [required_features] returns: [lambda func: func] or
    [unittest.skip(reason)]. *)
Inductive decorator :=
| identity
| skip (reason : string).

#[export] Instance decorator_eq_dec : EqDecision decorator.
Proof. solve_decision. Defined.

(** The caches of the two [memoized] methods, keyed by the call's
    arguments (the class, and for [required_features] the required
    tokens), and the number of swift-info requests sent. *)
Record state := {
  features_cache : gmap string string;
  decorators_cache : gmap (string * list string) decorator;
  swift_info_requests : nat
}.

Definition init : state :=
  {| features_cache := ∅; decorators_cache := ∅; swift_info_requests := 0 |}.

Definition set_features_cache (c : gmap string string) (st : state) : state :=
  {| features_cache := c;
     decorators_cache := decorators_cache st;
     swift_info_requests := swift_info_requests st |}.

Definition set_decorators_cache
    (c : gmap (string * list string) decorator) (st : state) : state :=
  {| features_cache := features_cache st;
     decorators_cache := c;
     swift_info_requests := swift_info_requests st |}.

(** Computations that read and update the [state] and may raise. *)
Definition M (A : Type) : Type := state → result A * state.

Definition ret {A} (a : A) : M A := λ st, (Return a, st).

Definition raise {A} (e : exn) : M A := λ st, (Raise e, st).

Definition bind {A B} (m : M A) (k : A → M B) : M B :=
  λ st, match m st with
        | (Return a, st') => k a st'
        | (Raise e, st') => (Raise e, st')
        end.

(** [try: m  except Exception as e: handler(e)] *)
Definition try_except {A} (m : M A) (handler : exn → M A) : M A :=
  λ st, match m st with
        | (Return a, st') => (Return a, st')
        | (Raise e, st') => handler e st'
        end.

Definition lift {A} (r : result A) : M A := λ st, (r, st).

Notation "x ← m ; k" := (bind m (λ x, k))
  (at level 20, m at level 100, k at level 200, only parsing).

(** Modelled from the spec: the [memoized] decorator of the test driver,
    which is not part of this repository.  The value returned by the first
    call with given arguments is stored (first access wins) and returned
    by every later call with the same arguments, without running the
    function again; a call that raises stores nothing. *)
Definition memoized {K A} `{Countable K}
    (cache : state → gmap K A) (set_cache : gmap K A → state → state)
    (args : K) (func : M A) : M A :=
  λ st, match cache st !! args with
        | Some value => (Return value, st)
        | None =>
            match func st with
            | (Return value, st') =>
                (Return value, set_cache (<[args := value]> (cache st')) st')
            | (Raise e, st') => (Raise e, st')
            end
        end.

Section Fixture.

Context {order : Py.SetOrder}.

(** The swift-info request: one more request is counted and the world
    answers. *)
Definition send_swift_info (w : World) (data : auth_data) : M string :=
  λ st, (behaviors_get_swift_features w data,
         {| features_cache := features_cache st;
            decorators_cache := decorators_cache st;
            swift_info_requests := S (swift_info_requests st) |}).

(** The local function [get_swift_features] of [get_features]: an
    exception of [get_auth_data], which stands outside the [try], passes
    through unchanged; one of the request is wrapped.  Its argument
    [api_config] only parameterizes the behaviors object, which is part of
    the world here. *)
Definition get_swift_features (w : World) : M (list string) :=
  data ← lift (get_auth_data w);
  features ← try_except (send_swift_info w data)
               (λ e, raise (SwiftInfoError (message e)));
  ret (Py.split features).

(** The local function [split_features] of [get_features]. *)
Definition split_features (api_config : ObjectStorageAPIConfig)
    (features : string) : Py.value :=
  if bool_decide (features = ALL_FEATURES api_config)
  then Py.Str features
  else Py.List (Py.split features).

(** The body of the loop that removes the excluded features:
    [features.pop(features.index(feature))], a [ValueError] of [index]
    being passed over. *)
Definition remove_feature (features : list string) (feature : string)
    : list string :=
  match Py.index feature features with
  | Some index => delete index features
  | None => features
  end.

(** The part of [get_features] after the swift-info request: from the
    splitting of the configured values to the final [return].  The first
    [return features] hands back the string just found equal to the
    sentinel. *)
Definition resolve (api_config : ObjectStorageAPIConfig)
    (reported_features : list string) : string :=
  let features := split_features api_config (features api_config) in
  let excluded_features :=
    split_features api_config (excluded_features api_config) in
  if Py.eq_str features (ALL_FEATURES api_config)
  then ALL_FEATURES api_config
  else
    let features :=
      Py.list_of_set
        (list_to_set reported_features ∪ list_to_set (Py.iter features)) in
    if Py.eq_str excluded_features (ALL_FEATURES api_config)
    then NO_FEATURES api_config
    else
      let features :=
        foldl remove_feature features (Py.iter excluded_features) in
      Py.join " " features.

(** The body of [get_features], run on a cache miss. *)
Definition get_features_body (api_config : ObjectStorageAPIConfig)
    (w : World) : M string :=
  reported_features ←
    (if use_swift_info api_config then get_swift_features w else ret []);
  ret (resolve api_config reported_features).

(** [cls.get_features()] *)
Definition get_features (cls : string)
    (api_config : ObjectStorageAPIConfig) (w : World) : M string :=
  memoized features_cache set_features_cache cls
    (get_features_body api_config w).

(** The loop of [required_features] that looks for a required token
    absent from the features and stops at the first one. *)
Fixpoint missing_reqs (features required_features : list string) : bool :=
  match required_features with
  | [] => false
  | req :: rest =>
      if bool_decide (req ∉ features) then true
      else missing_reqs features rest
  end.

(** The decision of [required_features] once the features are known. *)
Definition gate (api_config : ObjectStorageAPIConfig) (features : string)
    (required_features : list string) : decorator :=
  if bool_decide (features = ALL_FEATURES api_config) then identity
  else if bool_decide (features = NO_FEATURES api_config)
  then skip "skipping all features"
  else
    let features := Py.split features in
    if missing_reqs features required_features
    then skip ("requires features: " +:+ Py.join ", " required_features)
    else identity.

Definition ObjectStorageFixture : string := "ObjectStorageFixture".

(** The body of [required_features], run on a cache miss. *)
Definition required_features_body (api_config : ObjectStorageAPIConfig)
    (w : World) (required_features : list string) : M decorator :=
  features ← get_features ObjectStorageFixture api_config w;
  ret (gate api_config features required_features).

(** [cls.required_features] applied to the required tokens *)
Definition required_features (cls : string)
    (api_config : ObjectStorageAPIConfig) (w : World)
    (required_features : list string) : M decorator :=
  memoized decorators_cache set_decorators_cache (cls, required_features)
    (required_features_body api_config w required_features).

(** *** Notions used to state the properties *)

(** The tokens the server reports to [get_features]: none when
    [use_swift_info] is off; otherwise the authentication succeeds and
    the swift-info request is answered by a string, split into
    [reported]. *)
Definition reports (api_config : ObjectStorageAPIConfig) (w : World)
    (reported : list string) : Prop :=
  if use_swift_info api_config
  then ∃ data s, get_auth_data w = Return data
                 ∧ behaviors_get_swift_features w data = Return s
                 ∧ reported = Py.split s
  else reported = [].

(** The calls the test classes make on the fixture while they are
    loaded, and the state they leave behind. *)
Inductive call :=
| get_features_call (cls : string)
| required_features_call (cls : string) (required_features : list string).

Definition run_call (api_config : ObjectStorageAPIConfig) (w : World)
    (c : call) (st : state) : state :=
  match c with
  | get_features_call cls => (get_features cls api_config w st).2
  | required_features_call cls reqs =>
      (required_features cls api_config w reqs st).2
  end.

(** A history: the calls made so far, each with the world as it was at
    that time. *)
Definition run (api_config : ObjectStorageAPIConfig)
    (history : list (World * call)) (st : state) : state :=
  foldl (λ st wc, run_call api_config wc.1 wc.2 st) st history.

(** The list [features] at the final [return] of [get_features], when
    neither configured value is the sentinel. *)
Definition remaining_features (api_config : ObjectStorageAPIConfig)
    (reported : list string) : list string :=
  foldl remove_feature
    (Py.list_of_set
       (list_to_set reported
        ∪ list_to_set (Py.split (features api_config))))
    (Py.split (excluded_features api_config)).

(** The required tokens absent from the resolved features. *)
Definition missing_tokens (features : string)
    (required_features : list string) : list string :=
  filter (λ req, req ∉ Py.split features) required_features.

(** The caches hold what the code computed: a cached feature string is
    the resolution of some reported tokens, and a cached decorator is
    the gate's decision on the feature string cached for
    [ObjectStorageFixture]. *)
Definition cache_consistent (api_config : ObjectStorageAPIConfig)
    (st : state) : Prop :=
  (∀ cls v, features_cache st !! cls = Some v →
     ∃ reported, Forall Py.token reported ∧ v = resolve api_config reported)
  ∧ (∀ cls reqs d, decorators_cache st !! (cls, reqs) = Some d →
       ∃ v, features_cache st !! ObjectStorageFixture = Some v
            ∧ d = gate api_config v reqs).

End Fixture.

(** *** Sample configurations and worlds *)

(** A configuration with sample values for the two sentinels. *)
Definition sample_config (use : bool) (configured excluded : string)
    : ObjectStorageAPIConfig :=
  {| ALL_FEATURES := "all"; NO_FEATURES := "none"; use_swift_info := use;
     features := configured; excluded_features := excluded |}.

Definition sample_data : auth_data :=
  {| storage_url := "http://storage/v1/account"; auth_token := "token" |}.

(** The world of the source as it is: no base class has
    [get_auth_data]; the server would answer the swift-info request with
    [s]. *)
Definition source_world (s : string) : World :=
  {| inherited_get_auth_data := None;
     behaviors_get_swift_features := λ _, Return s |}.

(** A world in which a base class supplies [get_auth_data] and the server
    answers the swift-info request with [s]. *)
Definition world_reporting (s : string) : World :=
  {| inherited_get_auth_data := Some (Return sample_data);
     behaviors_get_swift_features := λ _, Return s |}.

(** A world in which a base class supplies [get_auth_data] and the
    swift-info request raises [e]. *)
Definition world_failing (e : exn) : World :=
  {| inherited_get_auth_data := Some (Return sample_data);
     behaviors_get_swift_features := λ _, Raise e |}.

End ObjectStorage.

(** ** The update-image scenarios *)

Module Images.

(** A [dict] of additional properties. *)
Abbreviation dict := (gmap string string).

Record image := {
  id_ : string;
  additional_properties : dict
}.

(** The response of the images client; [entity] is [None] when the body
    could not be read as an image. *)
Record response := {
  status_code : nat;
  entity : option image
}.

(** The requests a scenario sends, in the vocabulary of the client:
    [update_image(id, add=..., remove=..., replace=...)], an omitted
    keyword being [None]. *)
Inductive request :=
| create_new_image_request
| update_image_request (image_id : string) (add remove replace : option dict).

Section Scenario.

(** The service under test is a black box with a state of its own. *)
Context {S : Type}.

Record Client := {
  create_new_image : S → result image * S;
  update_image :
    string → option dict → option dict → option dict → S → result response * S
}.

Context (client : Client) (rand_name : string → string).

(** A test threads the state of the service and the log of the requests
    sent so far (most recent last), and may raise. *)
Definition T (A : Type) : Type :=
  S * list request → result A * (S * list request).

Definition ret {A} (a : A) : T A := λ st, (Return a, st).

Definition bind {A B} (m : T A) (k : A → T B) : T B :=
  λ st, match m st with
        | (Return a, st') => k a st'
        | (Raise e, st') => (Raise e, st')
        end.

Notation "x ← m ; k" := (bind m (λ x, k))
  (at level 20, m at level 100, k at level 200, only parsing).

(** [self.images_behavior.create_new_image()] *)
Definition images_behavior_create_new_image : T image :=
  λ '(s, log),
    let '(r, s') := create_new_image client s in
    (r, (s', (log ++ [create_new_image_request])%list)).

(** [self.images_client.update_image(image_id, add=, remove=, replace=)] *)
Definition images_client_update_image (image_id : string)
    (add remove replace : option dict) : T response :=
  λ '(s, log),
    let '(r, s') := update_image client image_id add remove replace s in
    (r, (s', (log ++ [update_image_request image_id add remove replace])%list)).

Definition assertEqual (first second : nat) : T unit :=
  λ st, if bool_decide (first = second) then (Return tt, st)
        else (Raise (AssertionError "assertEqual"), st).

Definition assertNotIn (member : string) (container : dict) : T unit :=
  λ st, match container !! member with
        | None => (Return tt, st)
        | Some _ => (Raise (AssertionError "assertNotIn"), st)
        end.

(** [response.entity.additional_properties]; reading an attribute of
    [None] raises [AttributeError]. *)
Definition entity_additional_properties (r : response) : T dict :=
  λ st, match entity r with
        | Some updated_image => (Return (additional_properties updated_image), st)
        | None => (Raise (Exception "AttributeError" "additional_properties"), st)
        end.

Definition test_update_image_remove_additional_property : T unit :=
  let new_prop := "user_prop" in
  let new_prop_value := rand_name "new_prop_value" in
  image ← images_behavior_create_new_image;
  response ← images_client_update_image (id_ image)
               (Some {[ new_prop := new_prop_value ]}) None None;
  _ ← assertEqual (status_code response) 200;
  response ← images_client_update_image (id_ image)
               None (Some {[ new_prop := new_prop_value ]}) None;
  _ ← assertEqual (status_code response) 200;
  properties ← entity_additional_properties response;
  assertNotIn new_prop properties.

(** *** The other two scenarios *)

(** [d.iteritems()] enumerates the items of a [dict] in the order of the
    hash table, which the language leaves unspecified: any enumeration of
    the items is possible. *)
Class DictOrder := {
  iteritems : dict → list (string * string);
  iteritems_perm : ∀ d, iteritems d ≡ₚ map_to_list d
}.

Context {dict_order : DictOrder}.

(** [self.assertEqual(first, second)] on strings *)
Definition assertEqual_str (first second : string) : T unit :=
  λ st, if bool_decide (first = second) then (Return tt, st)
        else (Raise (AssertionError "assertEqual"), st).

Definition assertIn (member : string) (container : dict) : T unit :=
  λ st, match container !! member with
        | Some _ => (Return tt, st)
        | None => (Raise (AssertionError "assertIn"), st)
        end.

(** The loop that closes the add and the replace scenario:
    [for prop, prop_val in items: if prop == new_prop:
    self.assertEqual(prop_val, expected)]. *)
Fixpoint assert_property_value (new_prop expected : string)
    (items : list (string * string)) : T unit :=
  match items with
  | [] => ret tt
  | (prop, prop_val) :: items =>
      _ ← (if bool_decide (prop = new_prop)
           then assertEqual_str prop_val expected
           else ret tt);
      assert_property_value new_prop expected items
  end.

Definition test_update_image_add_additional_property : T unit :=
  let new_prop := "user_prop" in
  let new_prop_value := rand_name "new_prop_value" in
  image ← images_behavior_create_new_image;
  response ← images_client_update_image (id_ image)
               (Some {[ new_prop := new_prop_value ]}) None None;
  _ ← assertEqual (status_code response) 200;
  properties ← entity_additional_properties response;
  _ ← assertIn new_prop properties;
  assert_property_value new_prop new_prop_value (iteritems properties).

Definition test_update_image_replace_additional_property : T unit :=
  let new_prop := "user_prop" in
  let new_prop_value := rand_name "new_prop_value" in
  let updated_new_prop_value := rand_name "updated_new_prop_value" in
  image ← images_behavior_create_new_image;
  response ← images_client_update_image (id_ image)
               (Some {[ new_prop := new_prop_value ]}) None None;
  _ ← assertEqual (status_code response) 200;
  response ← images_client_update_image (id_ image)
               None None (Some {[ new_prop := updated_new_prop_value ]});
  _ ← assertEqual (status_code response) 200;
  properties ← entity_additional_properties response;
  _ ← assertIn new_prop properties;
  assert_property_value new_prop updated_new_prop_value
    (iteritems properties).

End Scenario.

(** The enumeration of [gmap] is one possible order. *)
#[export] Instance map_to_list_order : DictOrder :=
  {| iteritems := map_to_list; iteritems_perm := λ d, reflexivity _ |}.

(** *** A sample service *)

(** A service that keeps the additional properties of one image and
    applies the patches it is sent; it is one possible behaviour of the
    black box, used to run the scenario. *)
Definition sample_patch (add remove replace : option dict) (props : dict)
    : dict :=
  let props := default ∅ add ∪ props in
  let props := props ∖ default ∅ remove in
  default ∅ replace ∪ props.

Definition sample_client : Client (S := dict) :=
  {| create_new_image := λ _,
       (Return {| id_ := "image-1"; additional_properties := ∅ |}, ∅);
     update_image := λ image_id add remove replace props,
       let props := sample_patch add remove replace props in
       (Return {| status_code := 200;
                  entity := Some {| id_ := image_id;
                                    additional_properties := props |} |},
        props) |}.

Definition sample_rand_name (prefix : string) : string :=
  prefix +:+ "_4711".

End Images.

(** ** Temporary containers *)

Module TempContainer.

(** The cleanups registered with [self.addCleanup]: here always
    [self.client.force_delete_containers] with its argument. *)
Inductive cleanup :=
| force_delete_containers (names : list string).

Section Fixture.

(** The storage service and the name generator are black boxes with a
    state of their own. *)
Context {S : Type}.

Record Client := {
  (** [self.behaviors.generate_unique_container_name(descriptor)] *)
  generate_unique_container_name : string → S → result string * S;
  (** [self.client.create_container(name, headers=headers)]; the result is
      the status code of the response. *)
  create_container :
    string → option (gmap string string) → S → result nat * S
}.

Context (client : Client).

(** A test threads the state of the service and the cleanups registered so
    far, in the order of registration, and may raise. *)
Definition T (A : Type) : Type :=
  S * list cleanup → result A * (S * list cleanup).

Definition ret {A} (a : A) : T A := λ st, (Return a, st).

Definition bind {A B} (m : T A) (k : A → T B) : T B :=
  λ st, match m st with
        | (Return a, st') => k a st'
        | (Raise e, st') => (Raise e, st')
        end.

Notation "x ← m ; k" := (bind m (λ x, k))
  (at level 20, m at level 100, k at level 200, only parsing).

Definition behaviors_generate_unique_container_name (descriptor : string)
    : T string :=
  λ '(s, cleanups),
    let '(r, s') := generate_unique_container_name client descriptor s in
    (r, (s', cleanups)).

Definition client_create_container (container_name : string)
    (headers : option (gmap string string)) : T nat :=
  λ '(s, cleanups),
    let '(r, s') := create_container client container_name headers s in
    (r, (s', cleanups)).

(** [self.addCleanup(function, args)] *)
Definition addCleanup (c : cleanup) : T unit :=
  λ '(s, cleanups), (Return tt, (s, (cleanups ++ [c])%list)).

Definition create_temp_container (descriptor : string)
    (headers : option (gmap string string)) : T string :=
  container_name ← behaviors_generate_unique_container_name descriptor;
  _ ← client_create_container container_name headers;
  _ ← addCleanup (force_delete_containers [container_name]);
  ret container_name.

(** *** Notions used to state the properties *)

(** A test body that creates temporary containers one after the other and
    stops at the first call that raises: the names returned so far, the
    exception if any, and the state left behind. *)
Fixpoint create_temp_containers
    (calls : list (string * option (gmap string string)))
    (st : S * list cleanup)
    : list string * option exn * (S * list cleanup) :=
  match calls with
  | [] => ([], None, st)
  | (descriptor, headers) :: calls =>
      match create_temp_container descriptor headers st with
      | (Return name, st') =>
          let '(names, e, st'') := create_temp_containers calls st' in
          (name :: names, e, st'')
      | (Raise e, st') => ([], Some e, st')
      end
  end.

End Fixture.

(** *** A sample service *)

(** A service that numbers the containers and refuses the names longer
    than eight letters with an exception. *)
Definition sample_client : Client (S := nat) :=
  {| generate_unique_container_name := λ descriptor n,
       (Return (descriptor +:+ "_" +:+ pretty n), S n);
     create_container := λ name _ n,
       if bool_decide (String.length name ≤ 8)%nat then (Return 201, n)
       else (Raise (Exception "ConnectionError" "refused"), n) |}.

End TempContainer.

(** * Properties *)

(** ** Splitting and joining *)

Module PyFacts.

Import Py.

Lemma app_empty_r (s : string) : s +:+ "" = s.
Proof. induction s as [|c s IH]; [done|]. unfold String.app; simpl. by f_equal. Qed.

Lemma app_cons (c : Ascii.ascii) (s t : string) : String c s +:+ t = String c (s +:+ t).
Proof. done. Qed.

Lemma app_snoc (s : string) (c : Ascii.ascii) (t : string) :
  (s +:+ String c "") +:+ t = s +:+ String c t.
Proof. induction s as [|d s IH]; [done|]. rewrite !app_cons. by f_equal. Qed.

Lemma app_empty_inv (s t : string) : s +:+ t = "" → s = "" ∧ t = "".
Proof. destruct s; [done|]. by rewrite app_cons. Qed.

Lemma no_space_app (s t : string) :
  no_space (s +:+ t) = no_space s && no_space t.
Proof.
  induction s as [|c s IH]; [done|].
  rewrite app_cons. simpl. rewrite IH. by rewrite andb_assoc.
Qed.

(** Scanning a stretch without whitespace only extends the current word. *)
Lemma split_go_no_space (w cur s : string) :
  no_space w = true → split_go cur (w +:+ s) = split_go (cur +:+ w) s.
Proof.
  revert cur. induction w as [|c w IH]; intros cur Hw.
  - by rewrite app_empty_r.
  - simpl in Hw. apply andb_prop in Hw as [Hc Hw].
    rewrite app_cons. simpl. apply negb_true_iff in Hc. rewrite Hc.
    rewrite IH by done. by rewrite app_snoc.
Qed.

(** Whitespace closes the current word. *)
Lemma split_go_space (cur s : string) :
  cur ≠ "" → split_go cur (String " "%char s) = cur :: split_go "" s.
Proof. intros Hcur. simpl. by rewrite bool_decide_eq_false_2. Qed.

Lemma split_go_end (cur : string) : cur ≠ "" → split_go cur "" = [cur].
Proof. intros Hcur. simpl. by rewrite bool_decide_eq_false_2. Qed.

(** Every word produced by the scan is a token. *)
Lemma split_go_tokens (s cur : string) :
  no_space cur = true → Forall token (split_go cur s).
Proof.
  revert cur. induction s as [|c s IH]; intros cur Hcur; simpl.
  - case_bool_decide; [constructor|]. by repeat constructor.
  - destruct (isspace c) eqn:Hc.
    + case_bool_decide; [by apply IH|].
      constructor; [done|by apply IH].
    + apply IH. rewrite no_space_app, Hcur. simpl. by rewrite Hc.
Qed.

Lemma split_tokens (s : string) : Forall token (split s).
Proof. by apply split_go_tokens. Qed.

Lemma join_cons (sep w w' : string) (l : list string) :
  join sep (w :: w' :: l) = w +:+ sep +:+ join sep (w' :: l).
Proof. done. Qed.

Lemma split_join_cons (l : list string) (w : string) :
  Forall token (w :: l) → split (join " " (w :: l)) = w :: l.
Proof.
  revert w. induction l as [|w' l IH]; intros w Hl.
  - apply Forall_cons in Hl as [[Hne Hw] _]. unfold split, join. simpl.
    rewrite <-(app_empty_r w) at 1. rewrite split_go_no_space by done.
    by apply split_go_end.
  - apply Forall_cons in Hl as [[Hne Hw] Hl].
    rewrite join_cons. unfold split.
    rewrite split_go_no_space by done. simpl String.app.
    rewrite app_cons. rewrite split_go_space by done.
    f_equal. by apply IH.
Qed.

(** Splitting the joined tokens gives the tokens back. *)
Lemma split_join (l : list string) :
  Forall token l → split (join " " l) = l.
Proof. destruct l; [done|]. apply split_join_cons. Qed.

End PyFacts.

(** ** The feature resolver and the gate *)

Module ObjectStorageFacts.

Import Py PyFacts ObjectStorage.

(** *** Removing the excluded features *)

Lemma remove_feature_cons (y : string) (l : list string) (x : string) :
  remove_feature (y :: l) x
  = if bool_decide (y = x) then l else y :: remove_feature l x.
Proof.
  unfold remove_feature. simpl. case_bool_decide; [done|].
  by destruct (index x l).
Qed.

(** An absent token leaves the list as it is: the [ValueError] is passed
    over. *)
Lemma remove_feature_absent (l : list string) (x : string) :
  x ∉ l → remove_feature l x = l.
Proof.
  induction l as [|y l IH]; intros Hx; [done|].
  rewrite remove_feature_cons. apply not_elem_of_cons in Hx as [Hxy Hx].
  rewrite bool_decide_eq_false_2 by done. by rewrite IH.
Qed.

Lemma elem_of_remove_feature (l : list string) (x y : string) :
  NoDup l → y ∈ remove_feature l x ↔ y ∈ l ∧ y ≠ x.
Proof.
  induction l as [|z l IH]; intros Hl.
  - unfold remove_feature; simpl. rewrite elem_of_nil. tauto.
  - apply NoDup_cons in Hl as [Hz Hl]. rewrite remove_feature_cons.
    case_bool_decide as Hzx.
    + subst z. rewrite elem_of_cons. intuition congruence.
    + rewrite !elem_of_cons, IH by done. intuition congruence.
Qed.

Lemma remove_feature_NoDup (l : list string) (x : string) :
  NoDup l → NoDup (remove_feature l x).
Proof.
  induction l as [|z l IH]; intros Hl; [done|].
  pose proof Hl as Hzl. apply NoDup_cons in Hzl as [Hz Hl'].
  rewrite remove_feature_cons. case_bool_decide; [done|].
  apply NoDup_cons. split; [|by apply IH].
  rewrite elem_of_remove_feature by done. tauto.
Qed.

Lemma remove_features_NoDup (excluded l : list string) :
  NoDup l → NoDup (foldl remove_feature l excluded).
Proof.
  revert l. induction excluded as [|x excluded IH]; intros l Hl; [done|].
  simpl. apply IH. by apply remove_feature_NoDup.
Qed.

Lemma elem_of_remove_features (excluded l : list string) (y : string) :
  NoDup l → y ∈ foldl remove_feature l excluded ↔ y ∈ l ∧ y ∉ excluded.
Proof.
  revert l. induction excluded as [|x excluded IH]; intros l Hl; simpl.
  - pose proof (not_elem_of_nil y). tauto.
  - rewrite IH by by apply remove_feature_NoDup.
    rewrite elem_of_remove_feature by done. rewrite not_elem_of_cons.
    tauto.
Qed.

(** A token of the exclusion list that the features do not contain can be
    dropped from the list. *)
Lemma remove_features_absent (l1 l2 l : list string) (x : string) :
  NoDup l → x ∉ l →
  foldl remove_feature l (l1 ++ x :: l2) = foldl remove_feature l (l1 ++ l2).
Proof.
  intros Hl Hx. rewrite !foldl_app. simpl. f_equal.
  apply remove_feature_absent.
  rewrite elem_of_remove_features by done. tauto.
Qed.

Section Fixture.

Context {order : SetOrder}.

Lemma list_of_set_NoDup (X : gset string) : NoDup (list_of_set X).
Proof. rewrite list_of_set_perm. apply NoDup_elements. Qed.

Lemma elem_of_list_of_set (X : gset string) (x : string) :
  x ∈ list_of_set X ↔ x ∈ X.
Proof. rewrite list_of_set_perm. apply elem_of_elements. Qed.

(** *** The three paths of the resolver *)

Lemma resolve_all (cfg : ObjectStorageAPIConfig) (reported : list string) :
  features cfg = ALL_FEATURES cfg → resolve cfg reported = ALL_FEATURES cfg.
Proof.
  intros Hall. unfold resolve, split_features.
  rewrite (bool_decide_eq_true_2 (features cfg = _)) by done. simpl.
  by rewrite bool_decide_eq_true_2.
Qed.

Lemma resolve_none (cfg : ObjectStorageAPIConfig) (reported : list string) :
  features cfg ≠ ALL_FEATURES cfg →
  excluded_features cfg = ALL_FEATURES cfg →
  resolve cfg reported = NO_FEATURES cfg.
Proof.
  intros Hf He. unfold resolve, split_features.
  rewrite (bool_decide_eq_false_2 (features cfg = _)) by done. simpl.
  rewrite (bool_decide_eq_true_2 (excluded_features cfg = _)) by done.
  simpl. by rewrite bool_decide_eq_true_2.
Qed.

Lemma resolve_join (cfg : ObjectStorageAPIConfig) (reported : list string) :
  features cfg ≠ ALL_FEATURES cfg →
  excluded_features cfg ≠ ALL_FEATURES cfg →
  resolve cfg reported = join " " (remaining_features cfg reported).
Proof.
  intros Hf He. unfold resolve, split_features.
  rewrite (bool_decide_eq_false_2 (features cfg = _)) by done. simpl.
  by rewrite (bool_decide_eq_false_2 (excluded_features cfg = _)) by done.
Qed.

Lemma remaining_features_NoDup (cfg : ObjectStorageAPIConfig)
    (reported : list string) :
  NoDup (remaining_features cfg reported).
Proof. apply remove_features_NoDup, list_of_set_NoDup. Qed.

(** The remaining features are (reported ∪ configured) minus excluded. *)
Lemma elem_of_remaining_features (cfg : ObjectStorageAPIConfig)
    (reported : list string) (y : string) :
  y ∈ remaining_features cfg reported
  ↔ (y ∈ reported ∨ y ∈ split (features cfg))
    ∧ y ∉ split (excluded_features cfg).
Proof.
  unfold remaining_features.
  rewrite elem_of_remove_features by apply list_of_set_NoDup.
  rewrite elem_of_list_of_set, elem_of_union, !elem_of_list_to_set.
  done.
Qed.

Lemma remaining_features_tokens (cfg : ObjectStorageAPIConfig)
    (reported : list string) :
  Forall token reported → Forall token (remaining_features cfg reported).
Proof.
  intros Hrep. apply Forall_forall. intros y Hy.
  apply elem_of_remaining_features in Hy as [[Hy|Hy] _].
  - by eapply Forall_forall in Hrep.
  - by eapply Forall_forall in Hy; [|apply split_tokens].
Qed.

(** The returned string splits back into the remaining features. *)
Lemma split_resolve (cfg : ObjectStorageAPIConfig) (reported : list string) :
  features cfg ≠ ALL_FEATURES cfg →
  excluded_features cfg ≠ ALL_FEATURES cfg →
  Forall token reported →
  split (resolve cfg reported) = remaining_features cfg reported.
Proof.
  intros Hf He Hrep. rewrite resolve_join by done.
  by apply split_join, remaining_features_tokens.
Qed.

Lemma reports_tokens (cfg : ObjectStorageAPIConfig) (w : World)
    (reported : list string) :
  reports cfg w reported → Forall token reported.
Proof.
  unfold reports. destruct (use_swift_info cfg).
  - intros (data & s & _ & _ & ->). apply split_tokens.
  - by intros ->.
Qed.

(** *** The body of [get_features] *)

(** The body touches neither cache, and what it returns is the
    resolution of the tokens it was given. *)
Lemma get_features_body_inv (cfg : ObjectStorageAPIConfig) (w : World)
    (st st' : state) (r : result string) :
  get_features_body cfg w st = (r, st') →
  features_cache st' = features_cache st
  ∧ decorators_cache st' = decorators_cache st
  ∧ ∀ v, r = Return v →
         ∃ reported, Forall token reported ∧ v = resolve cfg reported.
Proof.
  unfold get_features_body, get_swift_features, bind, try_except, lift,
    send_swift_info, raise, ret.
  destruct (use_swift_info cfg).
  - destruct (get_auth_data w) as [data|e].
    + destruct (behaviors_get_swift_features w data) as [s|e];
        intros [= <- <-]; simpl; repeat split; try done.
      intros v [= <-]. eexists; split; [apply split_tokens|done].
    + intros [= <- <-]. done.
  - intros [= <- <-]. repeat split; try done.
    intros v [= <-]. by exists [].
Qed.

Lemma get_features_body_reports (cfg : ObjectStorageAPIConfig) (w : World)
    (reported : list string) (st : state) :
  reports cfg w reported →
  (get_features_body cfg w st).1 = Return (resolve cfg reported).
Proof.
  unfold reports, get_features_body, get_swift_features, bind, try_except,
    lift, send_swift_info, raise, ret.
  destruct (use_swift_info cfg).
  - by intros (data & s & -> & -> & ->).
  - by intros ->.
Qed.

(** *** Memoization of [get_features] *)

Lemma get_features_hit (cls : string) (cfg : ObjectStorageAPIConfig)
    (w : World) (st : state) (v : string) :
  features_cache st !! cls = Some v →
  get_features cls cfg w st = (Return v, st).
Proof. intros Hhit. unfold get_features, memoized. by rewrite Hhit. Qed.

Lemma get_features_miss (cls : string) (cfg : ObjectStorageAPIConfig)
    (w : World) (st : state) :
  features_cache st !! cls = None →
  (get_features cls cfg w st).1 = (get_features_body cfg w st).1.
Proof.
  intros Hmiss. unfold get_features, memoized. rewrite Hmiss.
  by destruct (get_features_body cfg w st) as [[v|e] st'].
Qed.

(** A call that returns leaves its value in the cache, keeps every entry
    already there and does not touch the decorators. *)
Lemma get_features_returns (cls : string) (cfg : ObjectStorageAPIConfig)
    (w : World) (st st' : state) (v : string) :
  get_features cls cfg w st = (Return v, st') →
  features_cache st' !! cls = Some v
  ∧ (∀ k u, features_cache st !! k = Some u →
            features_cache st' !! k = Some u)
  ∧ decorators_cache st' = decorators_cache st.
Proof.
  unfold get_features, memoized.
  destruct (features_cache st !! cls) as [u|] eqn:Hcls.
  - by intros [= <- <-].
  - destruct (get_features_body cfg w st) as [[u|e] st1] eqn:Hbody;
      [|done].
    apply get_features_body_inv in Hbody as (Hf & Hd & _).
    intros [= <- <-]. simpl. rewrite Hf. split; [|split; [|done]].
    + apply lookup_insert_eq.
    + intros k u' Hk. rewrite lookup_insert_ne; [done|congruence].
Qed.

(** A call that raises caches nothing. *)
Lemma get_features_raises (cls : string) (cfg : ObjectStorageAPIConfig)
    (w : World) (st st' : state) (e : exn) :
  get_features cls cfg w st = (Raise e, st') →
  features_cache st' = features_cache st
  ∧ decorators_cache st' = decorators_cache st.
Proof.
  unfold get_features, memoized.
  destruct (features_cache st !! cls) as [u|] eqn:Hcls; [done|].
  destruct (get_features_body cfg w st) as [[u|e'] st1] eqn:Hbody;
    [done|].
  apply get_features_body_inv in Hbody as (Hf & Hd & _).
  by intros [= <- <-].
Qed.

(** Cached features are never replaced nor dropped. *)
Lemma get_features_mono (cls : string) (cfg : ObjectStorageAPIConfig)
    (w : World) (st : state) (k u : string) :
  features_cache st !! k = Some u →
  features_cache (get_features cls cfg w st).2 !! k = Some u.
Proof.
  intros Hk. destruct (get_features cls cfg w st) as [[v|e] st'] eqn:Hcall.
  - apply get_features_returns in Hcall as (_ & Hmono & _). by apply Hmono.
  - apply get_features_raises in Hcall as [Hf _]. simpl. by rewrite Hf.
Qed.

Lemma required_features_mono (cls : string) (cfg : ObjectStorageAPIConfig)
    (w : World) (reqs : list string) (st : state) (k u : string) :
  features_cache st !! k = Some u →
  features_cache (required_features cls cfg w reqs st).2 !! k = Some u.
Proof.
  intros Hk. unfold required_features, memoized.
  destruct (decorators_cache st !! (cls, reqs)); [done|].
  unfold required_features_body, bind, ret.
  pose proof (get_features_mono ObjectStorageFixture cfg w st k u Hk) as Hm.
  by destruct (get_features ObjectStorageFixture cfg w st) as [[v|e] st'].
Qed.

Lemma run_mono (cfg : ObjectStorageAPIConfig) (history : list (World * call))
    (st : state) (k u : string) :
  features_cache st !! k = Some u →
  features_cache (run cfg history st) !! k = Some u.
Proof.
  revert st. induction history as [|[w c] history IH]; intros st Hk;
    [done|].
  simpl. apply IH. destruct c as [cls|cls reqs]; simpl.
  - by apply get_features_mono.
  - by apply required_features_mono.
Qed.

(** *** The caches stay consistent *)

Lemma init_consistent (cfg : ObjectStorageAPIConfig) :
  cache_consistent cfg init.
Proof. split; intros *; simpl; by rewrite lookup_empty. Qed.

Lemma get_features_consistent (cls : string) (cfg : ObjectStorageAPIConfig)
    (w : World) (st : state) :
  cache_consistent cfg st →
  cache_consistent cfg (get_features cls cfg w st).2.
Proof.
  intros [Hfeat Hdec]. unfold get_features, memoized.
  destruct (features_cache st !! cls) as [u|] eqn:Hcls; [done|].
  destruct (get_features_body cfg w st) as [[v|e] st1] eqn:Hbody;
    apply get_features_body_inv in Hbody as (Hf & Hd & Hv); simpl.
  - split; simpl.
    + intros k u. rewrite Hf, lookup_insert. case_decide.
      * intros [= <-]. by apply Hv.
      * apply Hfeat.
    + intros k reqs d. rewrite Hd, Hf. intros Hk.
      destruct (Hdec _ _ _ Hk) as (u & Hu & ->). exists u. split; [|done].
      rewrite lookup_insert_ne; [done|congruence].
  - split; intros *; rewrite ?Hf, ?Hd; [apply Hfeat|apply Hdec].
Qed.

Lemma required_features_consistent (cls : string)
    (cfg : ObjectStorageAPIConfig) (w : World) (reqs : list string)
    (st : state) :
  cache_consistent cfg st →
  cache_consistent cfg (required_features cls cfg w reqs st).2.
Proof.
  intros Hst. unfold required_features, memoized.
  destruct (decorators_cache st !! (cls, reqs)); [done|].
  unfold required_features_body, bind, ret.
  pose proof (get_features_consistent ObjectStorageFixture cfg w st Hst)
    as Hst1.
  destruct (get_features ObjectStorageFixture cfg w st) as [[v|e] st1]
    eqn:Hcall; [|done].
  apply get_features_returns in Hcall as (Hv & _ & _).
  destruct Hst1 as [Hfeat Hdec]. simpl in *. split; simpl; [done|].
  intros k reqs' d. rewrite lookup_insert. case_decide.
  - intros [= <-]. exists v. split; [done|]. congruence.
  - apply Hdec.
Qed.

Lemma run_consistent (cfg : ObjectStorageAPIConfig)
    (history : list (World * call)) (st : state) :
  cache_consistent cfg st → cache_consistent cfg (run cfg history st).
Proof.
  revert st. induction history as [|[w c] history IH]; intros st Hst;
    [done|].
  simpl. apply IH. destruct c as [cls|cls reqs]; simpl.
  - by apply get_features_consistent.
  - by apply required_features_consistent.
Qed.

(** What [get_features] returns is always a resolution. *)
Lemma get_features_sound (cls : string) (cfg : ObjectStorageAPIConfig)
    (w : World) (st : state) (v : string) :
  cache_consistent cfg st →
  (get_features cls cfg w st).1 = Return v →
  ∃ reported, Forall token reported ∧ v = resolve cfg reported.
Proof.
  intros Hst Hv.
  destruct (get_features cls cfg w st) as [r st'] eqn:Hcall.
  simpl in Hv. subst r.
  pose proof (get_features_consistent cls cfg w st Hst) as [Hfeat _].
  rewrite Hcall in Hfeat. simpl in Hfeat.
  apply get_features_returns in Hcall as (Hcls & _ & _). eauto.
Qed.

(** The gate decides on the resolved features. *)
Lemma required_features_resolved (cls : string)
    (cfg : ObjectStorageAPIConfig) (w : World) (reqs : list string)
    (st : state) (v : string) :
  cache_consistent cfg st →
  (get_features ObjectStorageFixture cfg w st).1 = Return v →
  (required_features cls cfg w reqs st).1 = Return (gate cfg v reqs).
Proof.
  intros [_ Hdec] Hv. unfold required_features, memoized.
  destruct (decorators_cache st !! (cls, reqs)) as [d|] eqn:Hd.
  - destruct (Hdec _ _ _ Hd) as (u & Hu & ->).
    rewrite (get_features_hit _ cfg w st u Hu) in Hv. simpl in Hv.
    by injection Hv as ->.
  - unfold required_features_body, bind, ret.
    destruct (get_features ObjectStorageFixture cfg w st) as [[u|e] st1];
      simpl in Hv; [by injection Hv as ->|done].
Qed.

(** When the world reports, [get_features] returns, and returns a
    resolution, in every state the calls can lead to. *)
Lemma get_features_resolution (cls : string) (cfg : ObjectStorageAPIConfig)
    (w : World) (reported : list string) (st : state) :
  cache_consistent cfg st →
  reports cfg w reported →
  ∃ reported', Forall token reported'
    ∧ (get_features cls cfg w st).1 = Return (resolve cfg reported').
Proof.
  intros [Hfeat _] Hrep.
  destruct (features_cache st !! cls) as [v|] eqn:Hcls.
  - destruct (Hfeat _ _ Hcls) as (reported' & Htok & ->).
    exists reported'. split; [done|].
    by rewrite (get_features_hit cls cfg w st _ Hcls).
  - exists reported. split; [by eapply reports_tokens|].
    rewrite get_features_miss by done.
    by apply get_features_body_reports.
Qed.

Lemma missing_reqs_true (features reqs : list string) :
  missing_reqs features reqs = true ↔ ∃ req, req ∈ reqs ∧ req ∉ features.
Proof.
  induction reqs as [|req reqs IH]; simpl.
  - split; [done|]. intros (req & Hreq & _). by apply elem_of_nil in Hreq.
  - case_bool_decide as Hreq.
    + split; [|done]. intros _. exists req. split; [left|done].
    + rewrite IH. split.
      * intros (r & Hr & Hnot). exists r. split; [by right|done].
      * intros (r & Hr & Hnot). apply elem_of_cons in Hr as [->|Hr].
        -- by destruct (Hnot Hreq).
        -- by exists r.
Qed.

(** *** The resolver *)

(** C3, as amended: when the configured features are the sentinel
    [ALL_FEATURES], [get_features] returns [ALL_FEATURES] whatever
    [excluded_features] is, provided [use_swift_info] is off or the
    swift-info request has been answered, whatever it reports; this in
    every state reached by earlier calls of the fixture. *)
Theorem get_features_all_features (cfg : ObjectStorageAPIConfig)
    (history : list (World * call)) (w : World) (reported : list string)
    (cls : string) :
  features cfg = ALL_FEATURES cfg →
  reports cfg w reported →
  (get_features cls cfg w (run cfg history init)).1
  = Return (ALL_FEATURES cfg).
Proof.
  intros Hall Hrep.
  destruct (get_features_resolution cls cfg w reported
              (run cfg history init)) as (reported' & _ & ->);
    [apply run_consistent, init_consistent|done|].
  by rewrite resolve_all.
Qed.

(** C1, as amended: when [excluded_features] is the sentinel
    [ALL_FEATURES] and the configured features are not, [get_features]
    returns [NO_FEATURES] whatever the server reports, and (the two
    sentinels being distinct) [required_features] returns the skip
    decorator for every class and every list of required tokens. *)
Theorem get_features_excluded_all (cfg : ObjectStorageAPIConfig)
    (history : list (World * call)) (w : World) (reported : list string)
    (cls cls' : string) (reqs : list string) :
  excluded_features cfg = ALL_FEATURES cfg →
  features cfg ≠ ALL_FEATURES cfg →
  ALL_FEATURES cfg ≠ NO_FEATURES cfg →
  reports cfg w reported →
  (get_features cls cfg w (run cfg history init)).1
  = Return (NO_FEATURES cfg)
  ∧ (required_features cls' cfg w reqs (run cfg history init)).1
    = Return (skip "skipping all features").
Proof.
  intros Hexcl Hfeat Hne Hrep.
  pose proof (run_consistent cfg history init (init_consistent cfg)) as Hst.
  assert (∀ c, (get_features c cfg w (run cfg history init)).1
               = Return (NO_FEATURES cfg)) as Hget.
  { intros c.
    destruct (get_features_resolution c cfg w reported _ Hst Hrep)
      as (reported' & _ & ->).
    by rewrite resolve_none. }
  split; [apply Hget|].
  rewrite (required_features_resolved cls' cfg w reqs _ _ Hst (Hget _)).
  unfold gate. rewrite bool_decide_eq_false_2 by done.
  by rewrite bool_decide_eq_true_2.
Qed.

(** The [try] block as it is written: were [get_auth_data] supplied by a
    base class, an exception [e] of the swift-info request would come out
    of a computing [get_features] as [SwiftInfoError(e.message)], with
    nothing cached, and out of a computing [required_features] as well. *)
Lemma get_features_wraps_request_error (cfg : ObjectStorageAPIConfig)
    (w : World) (data : auth_data) (e : exn) (cls cls' : string)
    (reqs : list string) (st : state) :
  use_swift_info cfg = true →
  get_auth_data w = Return data →
  behaviors_get_swift_features w data = Raise e →
  features_cache st !! cls = None →
  (get_features cls cfg w st).1 = Raise (SwiftInfoError (message e))
  ∧ features_cache (get_features cls cfg w st).2 = features_cache st
  ∧ (features_cache st !! ObjectStorageFixture = None →
     decorators_cache st !! (cls', reqs) = None →
     (required_features cls' cfg w reqs st).1
     = Raise (SwiftInfoError (message e))).
Proof.
  intros Huse Hauth Hreq Hcls.
  assert (∀ c, features_cache st !! c = None →
            ∃ st', get_features c cfg w st
                   = (Raise (SwiftInfoError (message e)), st')
                   ∧ features_cache st' = features_cache st) as Hget.
  { intros c Hc. unfold get_features, memoized. rewrite Hc.
    unfold get_features_body, get_swift_features, bind, try_except, lift,
      send_swift_info, raise.
    rewrite Huse, Hauth, Hreq. by eexists. }
  destruct (Hget cls Hcls) as (st' & -> & Hst'). repeat split; [done|].
  intros Hosf Hdec. unfold required_features, memoized. rewrite Hdec.
  unfold required_features_body, bind.
  by destruct (Hget _ Hosf) as (st'' & -> & _).
Qed.

(** In the source as it is, a computing [get_features] with
    [use_swift_info] on stops at the call of [get_auth_data]. *)
Lemma get_features_no_get_auth_data (cfg : ObjectStorageAPIConfig)
    (w : World) (cls : string) (st : state) :
  use_swift_info cfg = true →
  inherited_get_auth_data w = None →
  features_cache st !! cls = None →
  get_features cls cfg w st = (Raise no_get_auth_data, st).
Proof.
  intros Huse Hnone Hcls. unfold get_features, memoized. rewrite Hcls.
  unfold get_features_body, get_swift_features, bind, lift, get_auth_data.
  by rewrite Huse, Hnone.
Qed.

(** C4, where the code departs from it: with [use_swift_info] on and the
    source as it is, a computing [get_features] raises the
    [AttributeError] of the call of [get_auth_data], which no class
    defines, before any swift-info request is sent.  Whatever the request
    would do, [SwiftInfoError] is not raised; a computing
    [required_features] raises the same [AttributeError]. *)
Theorem get_features_swift_info_error_unreached
    (cfg : ObjectStorageAPIConfig) (w : World) (cls cls' : string)
    (reqs : list string) (st : state) :
  use_swift_info cfg = true →
  inherited_get_auth_data w = None →
  features_cache st !! cls = None →
  get_features cls cfg w st = (Raise no_get_auth_data, st)
  ∧ (∀ m, (get_features cls cfg w st).1 ≠ Raise (SwiftInfoError m))
  ∧ (features_cache st !! ObjectStorageFixture = None →
     decorators_cache st !! (cls', reqs) = None →
     required_features cls' cfg w reqs st = (Raise no_get_auth_data, st)).
Proof.
  intros Huse Hnone Hcls.
  rewrite (get_features_no_get_auth_data cfg w cls st) by done.
  repeat split; [done|].
  intros Hosf Hdec. unfold required_features, memoized. rewrite Hdec.
  unfold required_features_body, bind.
  by rewrite (get_features_no_get_auth_data cfg w _ st).
Qed.

(** C5, where the code departs from it: with configured features "a b",
    excluded features "c" and [use_swift_info] on, so that the server's
    features (say "b c") are to be fetched, a first call of
    [get_features] in the source as it is returns nothing: it raises the
    [AttributeError] of the call of [get_auth_data] and sends no
    request, whatever the server would report. *)
Theorem get_features_scenario_unreached (all no : string) (w : World)
    (cls : string) (st : state) :
  let cfg := {| ALL_FEATURES := all; NO_FEATURES := no;
                use_swift_info := true;
                features := "a b"; excluded_features := "c" |} in
  inherited_get_auth_data w = None →
  features_cache st !! cls = None →
  get_features cls cfg w st = (Raise no_get_auth_data, st)
  ∧ ∀ r, (get_features cls cfg w st).1 ≠ Return r.
Proof.
  intros cfg Hnone Hcls.
  by rewrite (get_features_no_get_auth_data cfg w cls st).
Qed.

(** C6: an exclusion token [t] present neither among the reported nor
    among the configured features changes nothing: [get_features]
    behaves with the exclusion list [l1 ++ t :: l2] as with [l1 ++ l2],
    and it returns (no error is raised for the absent token). *)
Theorem get_features_absent_exclusion (all no : string) (use : bool)
    (configured excluded excluded' : string) (w : World)
    (reported : list string) (cls : string) (st : state)
    (t : string) (l1 l2 : list string) :
  let cfg := {| ALL_FEATURES := all; NO_FEATURES := no;
                use_swift_info := use; features := configured;
                excluded_features := excluded |} in
  let cfg' := {| ALL_FEATURES := all; NO_FEATURES := no;
                 use_swift_info := use; features := configured;
                 excluded_features := excluded' |} in
  excluded ≠ all → excluded' ≠ all →
  split excluded = (l1 ++ t :: l2)%list →
  split excluded' = (l1 ++ l2)%list →
  reports cfg w reported →
  t ∉ reported → t ∉ split configured →
  get_features cls cfg w st = get_features cls cfg' w st
  ∧ ∃ r, (get_features cls cfg w st).1 = Return r.
Proof.
  intros cfg cfg' He He' Hsplit Hsplit' Hrep Ht Ht'.
  assert (resolve cfg reported = resolve cfg' reported) as Hres.
  { destruct (decide (configured = all)) as [Hall|Hall].
    - by rewrite !resolve_all.
    - rewrite !resolve_join by done. f_equal.
      unfold remaining_features. simpl. rewrite Hsplit, Hsplit'.
      apply remove_features_absent; [apply list_of_set_NoDup|].
      rewrite elem_of_list_of_set, elem_of_union, !elem_of_list_to_set.
      tauto. }
  destruct (features_cache st !! cls) as [v|] eqn:Hcls.
  - rewrite !(get_features_hit cls _ w st v Hcls). eauto.
  - split.
    + unfold get_features, memoized. rewrite Hcls.
      unfold reports in Hrep.
      unfold get_features_body, get_swift_features, bind, try_except,
        lift, send_swift_info, raise, ret. simpl in *.
      destruct use.
      * destruct Hrep as (data & s & -> & -> & ->). by rewrite Hres.
      * subst reported. by rewrite Hres.
    + rewrite get_features_miss by done.
      rewrite (get_features_body_reports cfg w _ st Hrep). eauto.
Qed.

(** C10: whenever [get_features] returns a string that is not a
    sentinel, the tokens of that string are pairwise distinct and none
    of them is a token of the exclusion list. *)
Theorem get_features_distinct_not_excluded (cfg : ObjectStorageAPIConfig)
    (history : list (World * call)) (w : World) (cls : string)
    (r : string) :
  (get_features cls cfg w (run cfg history init)).1 = Return r →
  r ≠ ALL_FEATURES cfg → r ≠ NO_FEATURES cfg →
  NoDup (split r)
  ∧ ∀ t, t ∈ split (excluded_features cfg) → t ∉ split r.
Proof.
  intros Hr Hall Hno.
  apply get_features_sound in Hr as (reported & Htok & ->);
    [|apply run_consistent, init_consistent].
  destruct (decide (features cfg = ALL_FEATURES cfg)) as [Hf|Hf].
  { by rewrite resolve_all in Hall. }
  destruct (decide (excluded_features cfg = ALL_FEATURES cfg)) as [He|He].
  { by rewrite resolve_none in Hno. }
  rewrite split_resolve by done. split.
  - apply remaining_features_NoDup.
  - intros t Ht. rewrite elem_of_remaining_features. tauto.
Qed.

(** *** The gate *)

(** C7: when the resolved features are the sentinel [ALL_FEATURES],
    [required_features] returns the identity decorator for every class
    and every list of required tokens: no test is skipped. *)
Theorem required_features_all_features (cfg : ObjectStorageAPIConfig)
    (history : list (World * call)) (w : World) (cls : string)
    (reqs : list string) :
  (get_features ObjectStorageFixture cfg w (run cfg history init)).1
  = Return (ALL_FEATURES cfg) →
  (required_features cls cfg w reqs (run cfg history init)).1
  = Return identity.
Proof.
  intros Hall.
  rewrite (required_features_resolved cls cfg w reqs _ _
             (run_consistent cfg history init (init_consistent cfg)) Hall).
  unfold gate. by rewrite bool_decide_eq_true_2.
Qed.

(** C2, as amended: when the resolved features are no sentinel and some
    required token is absent from them, [required_features] returns a
    skip decorator whose reason is "requires features: " followed by
    all the required tokens, joined by ", ", in the order given. *)
Theorem required_features_missing (cfg : ObjectStorageAPIConfig)
    (history : list (World * call)) (w : World) (cls : string)
    (reqs : list string) (v : string) :
  (get_features ObjectStorageFixture cfg w (run cfg history init)).1
  = Return v →
  v ≠ ALL_FEATURES cfg → v ≠ NO_FEATURES cfg →
  (∃ req, req ∈ reqs ∧ req ∉ split v) →
  (required_features cls cfg w reqs (run cfg history init)).1
  = Return (skip ("requires features: " +:+ join ", " reqs)).
Proof.
  intros Hv Hall Hno Hmissing.
  rewrite (required_features_resolved cls cfg w reqs _ _
             (run_consistent cfg history init (init_consistent cfg)) Hv).
  unfold gate. rewrite !bool_decide_eq_false_2 by done.
  apply missing_reqs_true in Hmissing. by rewrite Hmissing.
Qed.

(** C8: once a call of [get_features] for a class has returned [v],
    every later call for that class returns [v] and leaves the state as
    it is (nothing is computed again, no swift-info request is sent),
    whatever calls of the fixture came in between and whatever the
    configuration and the server would answer by then. *)
Theorem get_features_memoized (cfg cfg' cfg'' : ObjectStorageAPIConfig)
    (w w' : World) (cls : string) (st st1 : state) (v : string)
    (history : list (World * call)) :
  get_features cls cfg w st = (Return v, st1) →
  get_features cls cfg'' w' (run cfg' history st1)
  = (Return v, run cfg' history st1).
Proof.
  intros Hfirst. apply get_features_returns in Hfirst as (Hcls & _ & _).
  by apply get_features_hit, run_mono.
Qed.

End Fixture.

(** *** The properties at sample inputs *)

Lemma get_features_all_features_witness :
  (get_features "TestContainers" (sample_config false "all" "c")
     (source_world "")
     (run (sample_config false "all" "c") [] init)).1
  = Return "all".
Proof.
  apply (get_features_all_features (sample_config false "all" "c") []
           (source_world "") [] "TestContainers").
  - reflexivity.
  - reflexivity.
Defined.

(** C3 fails as stated: with [use_swift_info] on, the swift-info request
    comes before the test of the sentinel.  In the source as it is the
    call of [get_auth_data] raises and [ALL_FEATURES] is not returned;
    were the method supplied, a failing request would raise
    [SwiftInfoError], and an answered one would have been sent before the
    return. *)
Lemma get_features_all_features_counterexample :
  let cfg := sample_config true "all" "" in
  features cfg = ALL_FEATURES cfg
  ∧ get_features ObjectStorageFixture cfg (source_world "b c") init
    = (Raise no_get_auth_data, init)
  ∧ (get_features ObjectStorageFixture cfg (source_world "b c") init).1
    ≠ Return (ALL_FEATURES cfg)
  ∧ (get_features ObjectStorageFixture cfg
       (world_failing (Exception "ConnectionError" "refused")) init).1
    = Raise (SwiftInfoError "refused")
  ∧ swift_info_requests
      (get_features ObjectStorageFixture cfg (world_reporting "b c") init).2
    = 1.
Proof. vm_compute. repeat split. discriminate. Qed.

(** C1 fails as stated: with both [features] and [excluded_features] equal
    to the sentinel, [get_features] returns [ALL_FEATURES], not
    [NO_FEATURES], and the gate skips nothing. *)
Lemma get_features_excluded_all_counterexample :
  let cfg := sample_config false "all" "all" in
  let w := source_world "" in
  excluded_features cfg = ALL_FEATURES cfg
  ∧ (get_features ObjectStorageFixture cfg w init).1
    = Return (ALL_FEATURES cfg)
  ∧ (get_features ObjectStorageFixture cfg w init).1
    ≠ Return (NO_FEATURES cfg)
  ∧ (required_features "TestContainers" cfg w ["tempurl"] init).1
    = Return identity.
Proof. vm_compute. repeat split. discriminate. Qed.

Lemma get_features_excluded_all_witness :
  (get_features "TestContainers" (sample_config false "a b" "all")
     (source_world "")
     (run (sample_config false "a b" "all") [] init)).1
  = Return "none"
  ∧ (required_features "TestObjects" (sample_config false "a b" "all")
       (source_world "") ["a"]
       (run (sample_config false "a b" "all") [] init)).1
    = Return (skip "skipping all features").
Proof.
  apply (get_features_excluded_all (sample_config false "a b" "all") []
           (source_world "") [] "TestContainers" "TestObjects" ["a"]).
  - reflexivity.
  - discriminate.
  - discriminate.
  - reflexivity.
Defined.

Lemma get_features_swift_info_error_unreached_witness :
  let cfg := sample_config true "a" "" in
  let w := {| inherited_get_auth_data := None;
              behaviors_get_swift_features :=
                λ _, Raise (Exception "ConnectionError" "refused") |} in
  get_features "TestContainers" cfg w init = (Raise no_get_auth_data, init)
  ∧ (∀ m, (get_features "TestContainers" cfg w init).1
          ≠ Raise (SwiftInfoError m))
  ∧ (features_cache init !! ObjectStorageFixture = None →
     decorators_cache init !! ("TestObjects", ["a"]) = None →
     required_features "TestObjects" cfg w ["a"] init
     = (Raise no_get_auth_data, init)).
Proof.
  apply (get_features_swift_info_error_unreached (sample_config true "a" "")
           {| inherited_get_auth_data := None;
              behaviors_get_swift_features :=
                λ _, Raise (Exception "ConnectionError" "refused") |}
           "TestContainers" "TestObjects" ["a"] init);
    reflexivity.
Defined.

Lemma get_features_scenario_unreached_witness :
  get_features "TestContainers" (sample_config true "a b" "c")
    (source_world "b c") init
  = (Raise no_get_auth_data, init)
  ∧ ∀ r, (get_features "TestContainers" (sample_config true "a b" "c")
            (source_world "b c") init).1 ≠ Return r.
Proof.
  apply (get_features_scenario_unreached "all" "none" (source_world "b c")
           "TestContainers" init);
    reflexivity.
Defined.

Lemma get_features_absent_exclusion_witness :
  get_features "TestContainers" (sample_config false "a b" "zz b")
    (source_world "") init
  = get_features "TestContainers" (sample_config false "a b" "b")
      (source_world "") init
  ∧ ∃ r, (get_features "TestContainers" (sample_config false "a b" "zz b")
            (source_world "") init).1 = Return r.
Proof.
  apply (get_features_absent_exclusion "all" "none" false "a b" "zz b" "b"
           (source_world "") [] "TestContainers" init "zz" [] ["b"]).
  - discriminate.
  - discriminate.
  - reflexivity.
  - reflexivity.
  - reflexivity.
  - apply not_elem_of_nil.
  - apply (bool_decide_unpack _). vm_compute. exact I.
Defined.

Lemma get_features_distinct_not_excluded_witness :
  NoDup (split "a b")
  ∧ ∀ t, t ∈ split (excluded_features (sample_config false "a b c" "c")) →
         t ∉ split "a b".
Proof.
  apply (get_features_distinct_not_excluded (sample_config false "a b c" "c")
           [] (source_world "") "TestContainers" "a b").
  - vm_compute. reflexivity.
  - discriminate.
  - discriminate.
Defined.

Lemma required_features_all_features_witness :
  (required_features "TestContainers" (sample_config false "all" "")
     (source_world "") ["tempurl"; "bulk"]
     (run (sample_config false "all" "") [] init)).1
  = Return identity.
Proof.
  apply (required_features_all_features (sample_config false "all" "") []
           (source_world "") "TestContainers" ["tempurl"; "bulk"]).
  vm_compute. reflexivity.
Defined.

(** C2 fails as stated: with resolved features "a" and required tokens a
    and b, only b is missing, yet the reason lists a as well. *)
Lemma required_features_missing_counterexample :
  let cfg := sample_config false "a" "" in
  let w := source_world "" in
  (get_features ObjectStorageFixture cfg w init).1 = Return "a"
  ∧ missing_tokens "a" ["a"; "b"] = ["b"]
  ∧ (required_features "TestContainers" cfg w ["a"; "b"] init).1
    = Return (skip "requires features: a, b")
  ∧ (required_features "TestContainers" cfg w ["a"; "b"] init).1
    ≠ Return (skip ("requires features: "
                    +:+ join ", " (missing_tokens "a" ["a"; "b"]))).
Proof. vm_compute. repeat split. discriminate. Qed.

Lemma required_features_missing_witness :
  (required_features "TestContainers" (sample_config false "a" "")
     (source_world "") ["a"; "b"]
     (run (sample_config false "a" "") [] init)).1
  = Return (skip ("requires features: " +:+ join ", " ["a"; "b"])).
Proof.
  apply (required_features_missing (sample_config false "a" "") []
           (source_world "") "TestContainers" ["a"; "b"] "a").
  - vm_compute. reflexivity.
  - discriminate.
  - discriminate.
  - exists "b". split.
    + right. left.
    + apply (bool_decide_unpack _). vm_compute. exact I.
Defined.

Lemma get_features_memoized_witness :
  let cfg := sample_config false "a b" "c" in
  let history :=
    [(source_world "x", get_features_call "TestObjects");
     (source_world "y", required_features_call "TestContainers" ["z"])] in
  let st1 := (get_features "TestContainers" cfg (source_world "") init).2 in
  get_features "TestContainers" (sample_config false "q" "")
    (source_world "x y z") (run cfg history st1)
  = (Return "a b", run cfg history st1).
Proof.
  apply (get_features_memoized (sample_config false "a b" "c")
           (sample_config false "a b" "c") (sample_config false "q" "")
           (source_world "") (source_world "x y z")
           "TestContainers" init).
  vm_compute. reflexivity.
Defined.

End ObjectStorageFacts.

(** ** The update-image scenarios *)

Module ImagesFacts.

Import Images.

Section Scenario.

Context {S : Type} (client : Client (S := S)) (rand_name : string → string).

(** C9: the scenario creates an image, sends an update adding
    [user_prop] and then an update removing it.  It fails on the first
    assertion when the first response is not 200 (the second update is
    then never sent), on the second when the second response is not
    200, on the third when [user_prop] is still among the additional
    properties of the last response, and passes otherwise. *)
Theorem test_update_image_remove_additional_property_spec
    (s0 s1 s2 s3 : S) (created updated : image) (r1 r2 : response) :
  let patch : dict := {[ "user_prop" := rand_name "new_prop_value" ]} in
  let create := create_new_image_request in
  let add := update_image_request (id_ created) (Some patch) None None in
  let remove := update_image_request (id_ created) None (Some patch) None in
  let outcome :=
    test_update_image_remove_additional_property client rand_name (s0, []) in
  create_new_image client s0 = (Return created, s1) →
  update_image client (id_ created) (Some patch) None None s1
  = (Return r1, s2) →
  update_image client (id_ created) None (Some patch) None s2
  = (Return r2, s3) →
  entity r2 = Some updated →
  (status_code r1 ≠ 200 →
   outcome = (Raise (AssertionError "assertEqual"), (s2, [create; add])))
  ∧ (status_code r1 = 200 → status_code r2 ≠ 200 →
     outcome
     = (Raise (AssertionError "assertEqual"), (s3, [create; add; remove])))
  ∧ (status_code r1 = 200 → status_code r2 = 200 →
     is_Some (additional_properties updated !! "user_prop") →
     outcome
     = (Raise (AssertionError "assertNotIn"), (s3, [create; add; remove])))
  ∧ (status_code r1 = 200 → status_code r2 = 200 →
     additional_properties updated !! "user_prop" = None →
     outcome = (Return tt, (s3, [create; add; remove]))).
Proof.
  intros patch create add remove outcome Hcreate Hadd Hremove Hentity.
  subst outcome.
  unfold test_update_image_remove_additional_property, bind,
    images_behavior_create_new_image, images_client_update_image,
    assertEqual, assertNotIn, entity_additional_properties.
  fold patch. rewrite Hcreate. simpl. rewrite Hadd. simpl.
  repeat split.
  - intros H1. by rewrite bool_decide_eq_false_2.
  - intros H1 H2. rewrite bool_decide_eq_true_2 by done.
    rewrite Hremove. simpl. by rewrite bool_decide_eq_false_2.
  - intros H1 H2 [x Hx]. rewrite bool_decide_eq_true_2 by done.
    rewrite Hremove. simpl. rewrite bool_decide_eq_true_2 by done.
    by rewrite Hentity, Hx.
  - intros H1 H2 Hx. rewrite bool_decide_eq_true_2 by done.
    rewrite Hremove. simpl. rewrite bool_decide_eq_true_2 by done.
    by rewrite Hentity, Hx.
Qed.

End Scenario.

(** Against the sample service the scenario passes, having sent the three
    requests. *)
Lemma test_update_image_remove_additional_property_witness :
  let patch : dict := {[ "user_prop" := "new_prop_value_4711" ]} in
  test_update_image_remove_additional_property sample_client
    sample_rand_name (∅, [])
  = (Return tt,
     (∅, [create_new_image_request;
          update_image_request "image-1" (Some patch) None None;
          update_image_request "image-1" None (Some patch) None])).
Proof.
  intros patch.
  edestruct (test_update_image_remove_additional_property_spec sample_client
               sample_rand_name ∅) as (_ & _ & _ & Hpass);
    [reflexivity | reflexivity | reflexivity | reflexivity |].
  apply Hpass; reflexivity.
Defined.

End ImagesFacts.

(** ** More on the feature resolver and the gate *)

Module ObjectStorageMore.

Import Py PyFacts ObjectStorage ObjectStorageFacts.

(** On a list without repetition, the removal loop is a filter. *)
Lemma remove_feature_filter (l : list string) (x : string) :
  NoDup l → remove_feature l x = filter (λ y, y ≠ x) l.
Proof.
  induction l as [|z l IH]; intros Hl; [done|].
  apply NoDup_cons in Hl as [Hz Hl]. rewrite remove_feature_cons.
  rewrite filter_cons. case_bool_decide as Hzx.
  - subst z. rewrite decide_False by tauto.
    rewrite <-IH by done. by rewrite remove_feature_absent.
  - rewrite decide_True by done. by rewrite IH.
Qed.

Lemma remove_features_filter (excluded l : list string) :
  NoDup l → foldl remove_feature l excluded = filter (λ y, y ∉ excluded) l.
Proof.
  revert l. induction excluded as [|x excluded IH]; intros l Hl; simpl.
  - induction l as [|y l IHl]; [done|]. apply NoDup_cons in Hl as [_ Hl].
    rewrite filter_cons_True by apply not_elem_of_nil. by rewrite <-IHl.
  - rewrite IH by by apply remove_feature_NoDup.
    rewrite remove_feature_filter by done. rewrite list_filter_filter.
    apply list_filter_iff. intros y. rewrite not_elem_of_cons. tauto.
Qed.

Section Fixture.

Context {order : SetOrder}.

(** Two configurations that resolve alike make [get_features] behave
    alike. *)
Lemma get_features_congruence (cfg cfg' : ObjectStorageAPIConfig) (w : World)
    (cls : string) (st : state) :
  use_swift_info cfg = use_swift_info cfg' →
  (∀ reported, resolve cfg reported = resolve cfg' reported) →
  get_features cls cfg w st = get_features cls cfg' w st.
Proof.
  intros Huse Hres. unfold get_features, memoized.
  destruct (features_cache st !! cls); [done|].
  unfold get_features_body, get_swift_features, bind, try_except, lift,
    send_swift_info, raise, ret.
  rewrite <-Huse. destruct (use_swift_info cfg); [|by rewrite Hres].
  destruct (get_auth_data w) as [data|e]; [|done].
  destruct (behaviors_get_swift_features w data) as [s|e]; [|done].
  by rewrite Hres.
Qed.

(** The gate lets a test run exactly when no required token is missing. *)
Lemma gate_identity (cfg : ObjectStorageAPIConfig) (v : string)
    (reqs : list string) :
  v ≠ ALL_FEATURES cfg → v ≠ NO_FEATURES cfg →
  gate cfg v reqs = identity ↔ ∀ req, req ∈ reqs → req ∈ split v.
Proof.
  intros Hall Hno. unfold gate. rewrite !bool_decide_eq_false_2 by done.
  destruct (missing_reqs (split v) reqs) eqn:Hmiss.
  - apply missing_reqs_true in Hmiss as (req & Hreq & Hnot).
    split; [done|]. intros Hin. by destruct (Hnot (Hin _ Hreq)).
  - split; [|done]. intros _ req Hreq.
    destruct (decide (req ∈ split v)) as [|Hnot]; [done|].
    assert (missing_reqs (split v) reqs = true) as Habs
      by (apply missing_reqs_true; eauto).
    congruence.
Qed.

(** With [use_swift_info] off a call sends no request and returns. *)
Lemma get_features_off (cls : string) (cfg : ObjectStorageAPIConfig)
    (w : World) (st : state) :
  use_swift_info cfg = false →
  ∃ r st', get_features cls cfg w st = (Return r, st')
           ∧ swift_info_requests st' = swift_info_requests st.
Proof.
  intros Hoff. unfold get_features, memoized.
  destruct (features_cache st !! cls) as [v|]; [by eauto|].
  unfold get_features_body, bind, ret. rewrite Hoff. by eauto.
Qed.

Lemma run_call_off (cfg : ObjectStorageAPIConfig) (w : World) (c : call)
    (st : state) :
  use_swift_info cfg = false →
  swift_info_requests (run_call cfg w c st) = swift_info_requests st.
Proof.
  intros Hoff. destruct c as [cls|cls reqs]; simpl.
  - by destruct (get_features_off cls cfg w st Hoff) as (r & st' & -> & ?).
  - unfold required_features, memoized.
    destruct (decorators_cache st !! (cls, reqs)); [done|].
    unfold required_features_body, bind, ret.
    by destruct (get_features_off ObjectStorageFixture cfg w st Hoff)
      as (r & st' & -> & ?).
Qed.

(** X1: with [use_swift_info] on, an exception raised by [get_auth_data]
    leaves a computing [get_features] unchanged: it is not wrapped into
    [SwiftInfoError], no swift-info request is sent and nothing is
    cached. *)
Theorem get_features_auth_failure (cfg : ObjectStorageAPIConfig) (w : World)
    (e : exn) (cls : string) (st : state) :
  use_swift_info cfg = true →
  get_auth_data w = Raise e →
  features_cache st !! cls = None →
  get_features cls cfg w st = (Raise e, st).
Proof.
  intros Huse Hauth Hcls. unfold get_features, memoized. rewrite Hcls.
  unfold get_features_body, get_swift_features, bind, lift.
  by rewrite Huse, Hauth.
Qed.

(** X2: with [use_swift_info] off, no call of the fixture ever sends a
    swift-info request, and [get_features] always returns, whatever the
    world. *)
Theorem get_features_swift_info_off (cfg : ObjectStorageAPIConfig)
    (history : list (World * call)) (w : World) (cls : string) :
  use_swift_info cfg = false →
  swift_info_requests (run cfg history init) = 0
  ∧ ∃ r, (get_features cls cfg w (run cfg history init)).1 = Return r.
Proof.
  intros Hoff. split.
  - assert (∀ st, swift_info_requests (run cfg history st)
                  = swift_info_requests st) as Hrun; [|by rewrite Hrun].
    induction history as [|[w' c] history IH]; intros st; [done|].
    simpl. rewrite IH. by apply run_call_off.
  - destruct (get_features_off cls cfg w (run cfg history init) Hoff)
      as (r & st' & -> & _). by exists r.
Qed.

(** X3: when neither configured value is the sentinel, the tokens of the
    string a first call of [get_features] returns are exactly the tokens
    reported or configured and not excluded. *)
Theorem get_features_tokens (cfg : ObjectStorageAPIConfig) (w : World)
    (reported : list string) (cls : string) (st : state) :
  features cfg ≠ ALL_FEATURES cfg →
  excluded_features cfg ≠ ALL_FEATURES cfg →
  reports cfg w reported →
  features_cache st !! cls = None →
  ∃ r, (get_features cls cfg w st).1 = Return r
       ∧ ∀ y, y ∈ split r
              ↔ (y ∈ reported ∨ y ∈ split (features cfg))
                ∧ y ∉ split (excluded_features cfg).
Proof.
  intros Hf He Hrep Hcls. eexists. split.
  - rewrite get_features_miss by done. by apply get_features_body_reports.
  - intros y. rewrite split_resolve by eauto using reports_tokens.
    apply elem_of_remaining_features.
Qed.

(** X4: only the set of excluded tokens matters: two exclusion lists with
    the same tokens, in any order and with any repetitions, make
    [get_features] behave the same. *)
Theorem get_features_exclusion_set (all no : string) (use : bool)
    (configured excluded excluded' : string) (w : World) (cls : string)
    (st : state) :
  let cfg := {| ALL_FEATURES := all; NO_FEATURES := no;
                use_swift_info := use; features := configured;
                excluded_features := excluded |} in
  let cfg' := {| ALL_FEATURES := all; NO_FEATURES := no;
                 use_swift_info := use; features := configured;
                 excluded_features := excluded' |} in
  excluded ≠ all → excluded' ≠ all →
  (∀ t, t ∈ split excluded ↔ t ∈ split excluded') →
  get_features cls cfg w st = get_features cls cfg' w st.
Proof.
  intros cfg cfg' He He' Hsame. apply get_features_congruence; [done|].
  intros reported. destruct (decide (configured = all)) as [Hall|Hall].
  - by rewrite !resolve_all.
  - rewrite !resolve_join by done. f_equal. unfold remaining_features.
    rewrite !remove_features_filter by apply list_of_set_NoDup. simpl.
    apply list_filter_iff. intros y. by rewrite Hsame.
Qed.

(** X5: when the resolved features are no sentinel, [required_features]
    returns the identity decorator exactly when every required token is
    among them. *)
Theorem required_features_runs_iff (cfg : ObjectStorageAPIConfig)
    (history : list (World * call)) (w : World) (cls : string)
    (reqs : list string) (v : string) :
  (get_features ObjectStorageFixture cfg w (run cfg history init)).1
  = Return v →
  v ≠ ALL_FEATURES cfg → v ≠ NO_FEATURES cfg →
  (required_features cls cfg w reqs (run cfg history init)).1
  = Return identity
  ↔ ∀ req, req ∈ reqs → req ∈ split v.
Proof.
  intros Hv Hall Hno.
  rewrite (required_features_resolved cls cfg w reqs _ _
             (run_consistent cfg history init (init_consistent cfg)) Hv).
  rewrite <-gate_identity by done. split; [by intros [= ->]|by intros ->].
Qed.

(** X6: from the configuration to the decision.  When the features have
    not been resolved yet, no sentinel is configured and the resolved
    string is no sentinel, a test runs exactly when each of its required
    tokens is reported or configured, and not excluded. *)
Theorem required_features_decision (cfg : ObjectStorageAPIConfig)
    (history : list (World * call)) (w : World) (reported : list string)
    (cls : string) (reqs : list string) :
  features cfg ≠ ALL_FEATURES cfg →
  excluded_features cfg ≠ ALL_FEATURES cfg →
  reports cfg w reported →
  features_cache (run cfg history init) !! ObjectStorageFixture = None →
  resolve cfg reported ≠ ALL_FEATURES cfg →
  resolve cfg reported ≠ NO_FEATURES cfg →
  (required_features cls cfg w reqs (run cfg history init)).1
  = Return identity
  ↔ ∀ req, req ∈ reqs →
           (req ∈ reported ∨ req ∈ split (features cfg))
           ∧ req ∉ split (excluded_features cfg).
Proof.
  intros Hf He Hrep Hcls Hall Hno.
  assert ((get_features ObjectStorageFixture cfg w (run cfg history init)).1
          = Return (resolve cfg reported)) as Hv.
  { rewrite get_features_miss by done. by apply get_features_body_reports. }
  rewrite (required_features_resolved cls cfg w reqs _ _
             (run_consistent cfg history init (init_consistent cfg)) Hv).
  assert (gate cfg (resolve cfg reported) reqs = identity
          ↔ ∀ req, req ∈ reqs →
                   (req ∈ reported ∨ req ∈ split (features cfg))
                   ∧ req ∉ split (excluded_features cfg)) as <-.
  { rewrite gate_identity by done.
    rewrite split_resolve by eauto using reports_tokens.
    by setoid_rewrite elem_of_remaining_features. }
  split; [by intros [= ->]|by intros ->].
Qed.

Lemma split_token (t : string) : token t → split t = [t].
Proof. intros Ht. apply (split_join [t]). by constructor. Qed.

(** X7: the sentinels share the name space of the features.  When the
    only configured feature is named like [NO_FEATURES], with nothing
    reported and nothing excluded, [get_features] returns that very string
    and [required_features] skips every test: for every class and every
    list of required tokens, also the list that requires just this
    feature. *)
Theorem required_features_feature_named_no_features
    (cfg : ObjectStorageAPIConfig) (w : World) (cls : string)
    (reqs : list string) (st : state) :
  use_swift_info cfg = false →
  features cfg = NO_FEATURES cfg →
  excluded_features cfg = "" →
  NO_FEATURES cfg ≠ ALL_FEATURES cfg →
  token (NO_FEATURES cfg) →
  features_cache st !! ObjectStorageFixture = None →
  decorators_cache st !! (cls, reqs) = None →
  (get_features ObjectStorageFixture cfg w st).1 = Return (NO_FEATURES cfg)
  ∧ (required_features cls cfg w reqs st).1
    = Return (skip "skipping all features").
Proof.
  intros Hoff Hfeat Hexcl Hne Htok Hcls Hdec.
  assert (resolve cfg [] = NO_FEATURES cfg) as Hres.
  { destruct (decide (excluded_features cfg = ALL_FEATURES cfg)) as [He|He].
    - apply resolve_none; [congruence|done].
    - rewrite resolve_join by congruence. unfold remaining_features.
      rewrite Hexcl, Hfeat, split_token by done. simpl.
      assert (list_of_set (∅ ∪ ({[NO_FEATURES cfg]} ∪ ∅))
              = [NO_FEATURES cfg]) as ->; [|done].
      apply Permutation_singleton_r, NoDup_Permutation.
      + apply list_of_set_NoDup.
      + apply NoDup_singleton.
      + intros y. rewrite elem_of_list_of_set, list_elem_of_singleton.
        rewrite !elem_of_union, elem_of_singleton, elem_of_empty. tauto. }
  assert ((get_features ObjectStorageFixture cfg w st).1
          = Return (NO_FEATURES cfg)) as Hget.
  { rewrite get_features_miss by done. rewrite <-Hres.
    apply get_features_body_reports. unfold reports. by rewrite Hoff. }
  split; [done|].
  unfold required_features, memoized. rewrite Hdec.
  unfold required_features_body, bind, ret.
  destruct (get_features ObjectStorageFixture cfg w st) as [[v|e] st'];
    simpl in Hget; [|done].
  injection Hget as ->. simpl. unfold gate.
  rewrite bool_decide_eq_false_2 by done.
  by rewrite bool_decide_eq_true_2.
Qed.

(** X8: [required_features] resolves the features of
    [ObjectStorageFixture], not of the class it is called on: whenever the
    world reports, two classes get the same decorator for the same required
    tokens. *)
Theorem required_features_class_independent (cfg : ObjectStorageAPIConfig)
    (history : list (World * call)) (w : World) (reported : list string)
    (cls cls' : string) (reqs : list string) :
  reports cfg w reported →
  (required_features cls cfg w reqs (run cfg history init)).1
  = (required_features cls' cfg w reqs (run cfg history init)).1.
Proof.
  intros Hrep.
  pose proof (run_consistent cfg history init (init_consistent cfg)) as Hst.
  destruct (get_features_resolution ObjectStorageFixture cfg w reported _
              Hst Hrep) as (reported' & _ & Hv).
  by rewrite !(required_features_resolved _ cfg w reqs _ _ Hst Hv).
Qed.

(** X9: when every reported and every configured token is excluded (in
    particular when there is none), a first call of [get_features] returns
    the empty string, not [NO_FEATURES]. *)
Theorem get_features_all_excluded (cfg : ObjectStorageAPIConfig) (w : World)
    (reported : list string) (cls : string) (st : state) :
  features cfg ≠ ALL_FEATURES cfg →
  excluded_features cfg ≠ ALL_FEATURES cfg →
  reports cfg w reported →
  features_cache st !! cls = None →
  (∀ y, y ∈ reported ∨ y ∈ split (features cfg) →
        y ∈ split (excluded_features cfg)) →
  (get_features cls cfg w st).1 = Return "".
Proof.
  intros Hf He Hrep Hcls Hall.
  rewrite get_features_miss by done.
  rewrite (get_features_body_reports cfg w reported st Hrep).
  rewrite resolve_join by done.
  destruct (remaining_features cfg reported) as [|y l] eqn:Hrem; [done|].
  assert (y ∈ remaining_features cfg reported) as Hy
    by (rewrite Hrem; left).
  apply elem_of_remaining_features in Hy as [Hy Hnot].
  by destruct (Hnot (Hall _ Hy)).
Qed.

End Fixture.

(** *** The properties at sample inputs *)

Lemma get_features_auth_failure_witness :
  get_features "TestContainers" (sample_config true "a" "")
    (source_world "a") init
  = (Raise no_get_auth_data, init).
Proof.
  apply (get_features_auth_failure (sample_config true "a" "")
           (source_world "a") no_get_auth_data "TestContainers" init);
    reflexivity.
Defined.

Lemma get_features_swift_info_off_witness :
  let cfg := sample_config false "a b" "" in
  let history :=
    [(world_failing (Exception "ConnectionError" "refused"),
      required_features_call "TestContainers" ["a"])] in
  swift_info_requests (run cfg history init) = 0
  ∧ ∃ r, (get_features "TestObjects" cfg
            (world_failing (Exception "ConnectionError" "refused"))
            (run cfg history init)).1 = Return r.
Proof.
  apply (get_features_swift_info_off (sample_config false "a b" "")
           [(world_failing (Exception "ConnectionError" "refused"),
             required_features_call "TestContainers" ["a"])]
           (world_failing (Exception "ConnectionError" "refused"))
           "TestObjects").
  reflexivity.
Defined.

Lemma get_features_tokens_witness :
  ∃ r, (get_features "TestContainers" (sample_config false "a b e" "c b")
          (source_world "") init).1 = Return r
       ∧ ∀ y, y ∈ split r
              ↔ (y ∈ []
                 ∨ y ∈ split (features (sample_config false "a b e" "c b")))
                ∧ y ∉ split (excluded_features
                               (sample_config false "a b e" "c b")).
Proof.
  apply (get_features_tokens (sample_config false "a b e" "c b")
           (source_world "") [] "TestContainers" init).
  - discriminate.
  - discriminate.
  - reflexivity.
  - reflexivity.
Defined.

Lemma get_features_exclusion_set_witness :
  get_features "TestContainers" (sample_config false "a b c" "c b c")
    (source_world "") init
  = get_features "TestContainers" (sample_config false "a b c" "b c")
      (source_world "") init.
Proof.
  apply (get_features_exclusion_set "all" "none" false "a b c" "c b c" "b c"
           (source_world "") "TestContainers" init).
  - discriminate.
  - discriminate.
  - intros t. change (split "c b c") with ["c"; "b"; "c"].
    change (split "b c") with ["b"; "c"].
    rewrite !elem_of_cons, elem_of_nil. tauto.
Defined.

Lemma required_features_runs_iff_witness :
  (required_features "TestContainers" (sample_config false "a b" "")
     (source_world "") ["a"; "b"]
     (run (sample_config false "a b" "") [] init)).1
  = Return identity
  ↔ ∀ req, req ∈ ["a"; "b"] → req ∈ split "a b".
Proof.
  apply (required_features_runs_iff (sample_config false "a b" "") []
           (source_world "") "TestContainers" ["a"; "b"] "a b").
  - vm_compute. reflexivity.
  - discriminate.
  - discriminate.
Defined.

Lemma required_features_decision_witness :
  let cfg := sample_config false "a b d" "c" in
  (required_features "TestContainers" cfg (source_world "")
     ["a"; "d"] (run cfg [] init)).1
  = Return identity
  ↔ ∀ req, req ∈ ["a"; "d"] →
           (req ∈ [] ∨ req ∈ split (features cfg))
           ∧ req ∉ split (excluded_features cfg).
Proof.
  apply (required_features_decision (sample_config false "a b d" "c") []
           (source_world "") [] "TestContainers" ["a"; "d"]).
  - discriminate.
  - discriminate.
  - reflexivity.
  - reflexivity.
  - vm_compute. discriminate.
  - vm_compute. discriminate.
Defined.

Lemma required_features_feature_named_no_features_witness :
  let cfg := sample_config false "none" "" in
  (get_features ObjectStorageFixture cfg (source_world "") init).1
  = Return "none"
  ∧ (required_features "TestContainers" cfg (source_world "") ["none"]
       init).1
    = Return (skip "skipping all features").
Proof.
  apply (required_features_feature_named_no_features
           (sample_config false "none" "") (source_world "")
           "TestContainers" ["none"] init).
  - reflexivity.
  - reflexivity.
  - reflexivity.
  - discriminate.
  - split; [discriminate|reflexivity].
  - reflexivity.
  - reflexivity.
Defined.

Lemma required_features_class_independent_witness :
  let cfg := sample_config false "a b" "c" in
  let history :=
    [(source_world "", required_features_call "TestContainers" ["x"])] in
  (required_features "TestContainers" cfg (source_world "") ["x"]
     (run cfg history init)).1
  = (required_features "TestObjects" cfg (source_world "") ["x"]
       (run cfg history init)).1.
Proof.
  apply (required_features_class_independent (sample_config false "a b" "c")
           [(source_world "",
             required_features_call "TestContainers" ["x"])]
           (source_world "") [] "TestContainers" "TestObjects" ["x"]).
  reflexivity.
Defined.

Lemma get_features_all_excluded_witness :
  (get_features "TestContainers" (sample_config false "a b" "b a")
     (source_world "") init).1
  = Return "".
Proof.
  apply (get_features_all_excluded (sample_config false "a b" "b a")
           (source_world "") [] "TestContainers" init).
  - discriminate.
  - discriminate.
  - reflexivity.
  - reflexivity.
  - intros y. change (split (features (sample_config false "a b" "b a")))
      with ["a"; "b"].
    change (split (excluded_features (sample_config false "a b" "b a")))
      with ["b"; "a"].
    rewrite !elem_of_cons, !elem_of_nil. tauto.
Defined.

End ObjectStorageMore.

(** ** Temporary containers *)

Module TempContainerFacts.

Import TempContainer.

Section Fixture.

Context {S : Type} (client : Client (S := S)).

Lemma create_temp_container_registers (descriptor : string)
    (headers : option (gmap string string)) (s s' : S)
    (cleanups cleanups' : list cleanup) (r : result string) :
  create_temp_container client descriptor headers (s, cleanups)
  = (r, (s', cleanups')) →
  cleanups' = match r with
              | Return name =>
                  (cleanups ++ [force_delete_containers [name]])%list
              | Raise _ => cleanups
              end.
Proof.
  unfold create_temp_container, bind,
    behaviors_generate_unique_container_name, client_create_container,
    addCleanup, ret.
  destruct (generate_unique_container_name client descriptor s)
    as [[name|e] s1]; [|by intros [= <- <- <-]].
  destruct (create_container client name headers s1) as [[status|e] s2];
    by intros [= <- <- <-].
Qed.

(** X10: a call of [create_temp_container] that raises registers no
    cleanup; in particular, when [create_container] raises after the name
    was generated, the container is not scheduled for deletion. *)
Theorem create_temp_container_raises (descriptor : string)
    (headers : option (gmap string string)) (s s' : S)
    (cleanups cleanups' : list cleanup) (e : exn) :
  create_temp_container client descriptor headers (s, cleanups)
  = (Raise e, (s', cleanups')) →
  cleanups' = cleanups.
Proof. intros Hcall. by apply create_temp_container_registers in Hcall. Qed.

(** X11: after a test body has created temporary containers one after the
    other, up to the end or up to the first call that raised, the cleanups
    registered by it are exactly the deletions of the names returned, one
    per name, in the order of creation. *)
Theorem create_temp_containers_cleanups
    (calls : list (string * option (gmap string string))) (s s' : S)
    (cleanups cleanups' : list cleanup) (names : list string)
    (e : option exn) :
  create_temp_containers client calls (s, cleanups)
  = (names, e, (s', cleanups')) →
  cleanups'
  = (cleanups ++ ((λ name, force_delete_containers [name]) <$> names))%list.
Proof.
  revert s s' cleanups cleanups' names e.
  induction calls as [|[descriptor headers] calls IH];
    intros s s' cleanups cleanups' names e; simpl.
  - intros [= <- <- <- <-]. by rewrite app_nil_r.
  - destruct (create_temp_container client descriptor headers (s, cleanups))
      as [[name|e1] [s1 cleanups1]] eqn:Hcall;
      apply create_temp_container_registers in Hcall as ->.
    + destruct (create_temp_containers client calls
                  (s1, (cleanups ++ [force_delete_containers [name]])%list))
        as [[names2 e2] [s2 cleanups2]] eqn:Hrest.
      apply IH in Hrest as ->. intros [= <- <- <- <-].
      by rewrite fmap_cons, <-app_assoc.
    + intros [= <- <- <- <-]. by rewrite app_nil_r.
Qed.

End Fixture.

Lemma create_temp_container_raises_witness :
  (create_temp_container sample_client "quarantine" None
     (0, [force_delete_containers ["a_0"]])).2.2
  = [force_delete_containers ["a_0"]].
Proof.
  apply (create_temp_container_raises sample_client "quarantine" None 0 1
           [force_delete_containers ["a_0"]] _
           (Exception "ConnectionError" "refused")).
  vm_compute. reflexivity.
Defined.

Lemma create_temp_containers_cleanups_witness :
  (create_temp_containers sample_client
     [("a", None); ("b", None); ("quarantine", None); ("c", None)]
     (0, [])).2.2
  = ([] ++ ((λ name, force_delete_containers [name]) <$> ["a_0"; "b_1"]))%list.
Proof.
  apply (create_temp_containers_cleanups sample_client
           [("a", None); ("b", None); ("quarantine", None); ("c", None)]
           0 3 [] _ ["a_0"; "b_1"]
           (Some (Exception "ConnectionError" "refused"))).
  vm_compute. reflexivity.
Defined.

End TempContainerFacts.

(** ** The add and the replace scenario *)

Module ImagesMore.

Import Images.

Section Scenario.

Context {S : Type} (client : Client (S := S)) (rand_name : string → string).
Context {dict_order : DictOrder}.

Lemma elem_of_iteritems (d : dict) (prop prop_val : string) :
  (prop, prop_val) ∈ iteritems d ↔ d !! prop = Some prop_val.
Proof. rewrite iteritems_perm. apply elem_of_map_to_list. Qed.

(** The closing loop passes when every item named [new_prop] carries the
    expected value, and fails on the first one that does not. *)
Lemma assert_property_value_passes (new_prop expected : string)
    (items : list (string * string)) (st : S * list request) :
  (∀ prop_val, (new_prop, prop_val) ∈ items → prop_val = expected) →
  assert_property_value (S := S) new_prop expected items st = (Return tt, st).
Proof.
  induction items as [|[prop prop_val] items IH]; intros Hall; [done|].
  simpl. unfold bind. case_bool_decide as Hprop.
  - subst prop. unfold assertEqual_str.
    rewrite bool_decide_eq_true_2 by (apply Hall; left).
    apply IH. intros v Hv. apply Hall. by right.
  - unfold ret. apply IH. intros v Hv. apply Hall. by right.
Qed.

Lemma assert_property_value_fails (new_prop expected : string)
    (items : list (string * string)) (st : S * list request) :
  (∃ prop_val, (new_prop, prop_val) ∈ items ∧ prop_val ≠ expected) →
  assert_property_value (S := S) new_prop expected items st
  = (Raise (AssertionError "assertEqual"), st).
Proof.
  induction items as [|[prop prop_val] items IH];
    intros (v & Hv & Hne); [by apply elem_of_nil in Hv|].
  simpl. unfold bind. case_bool_decide as Hprop.
  - subst prop. unfold assertEqual_str. case_bool_decide as Heq; [|done].
    apply IH. apply elem_of_cons in Hv as [[= -> ]|Hv]; [done|]. eauto.
  - unfold ret. apply IH.
    apply elem_of_cons in Hv as [[= <- ]|Hv]; [done|]. eauto.
Qed.

(** The closing loop, run on the items of a [dict], compares the value
    stored under [new_prop], whatever the order of enumeration. *)
Lemma assert_property_value_lookup (new_prop expected prop_val : string)
    (d : dict) (st : S * list request) :
  d !! new_prop = Some prop_val →
  assert_property_value (S := S) new_prop expected (iteritems d) st
  = (if bool_decide (prop_val = expected) then Return tt
     else Raise (AssertionError "assertEqual"), st).
Proof.
  intros Hd. case_bool_decide as Heq.
  - apply assert_property_value_passes. intros v Hv.
    apply elem_of_iteritems in Hv. congruence.
  - apply assert_property_value_fails. exists prop_val.
    by rewrite elem_of_iteritems.
Qed.

(** X12: the add scenario creates an image and sends one update adding
    [user_prop].  It fails when the response is not 200, when [user_prop]
    is not among the additional properties of the response, or when it is
    there with another value than the one sent, and passes otherwise,
    whatever the order in which the properties are enumerated. *)
Theorem test_update_image_add_additional_property_spec
    (s0 s1 s2 : S) (created updated : image) (r : response) :
  let value := rand_name "new_prop_value" in
  let patch : dict := {[ "user_prop" := value ]} in
  let create := create_new_image_request in
  let add := update_image_request (id_ created) (Some patch) None None in
  let outcome :=
    test_update_image_add_additional_property client rand_name (s0, []) in
  create_new_image client s0 = (Return created, s1) →
  update_image client (id_ created) (Some patch) None None s1
  = (Return r, s2) →
  entity r = Some updated →
  (status_code r ≠ 200 →
   outcome = (Raise (AssertionError "assertEqual"), (s2, [create; add])))
  ∧ (status_code r = 200 →
     additional_properties updated !! "user_prop" = None →
     outcome = (Raise (AssertionError "assertIn"), (s2, [create; add])))
  ∧ (∀ v, status_code r = 200 →
          additional_properties updated !! "user_prop" = Some v →
          v ≠ value →
          outcome = (Raise (AssertionError "assertEqual"), (s2, [create; add])))
  ∧ (status_code r = 200 →
     additional_properties updated !! "user_prop" = Some value →
     outcome = (Return tt, (s2, [create; add]))).
Proof.
  intros value patch create add outcome Hcreate Hadd Hentity.
  subst outcome.
  unfold test_update_image_add_additional_property, bind,
    images_behavior_create_new_image, images_client_update_image,
    assertEqual, assertIn, entity_additional_properties.
  fold value. fold patch. rewrite Hcreate. simpl. rewrite Hadd. simpl.
  rewrite Hentity. repeat split.
  - intros Hr. by rewrite bool_decide_eq_false_2.
  - intros Hr Hx. rewrite bool_decide_eq_true_2 by done. by rewrite Hx.
  - intros v Hr Hx Hv. rewrite bool_decide_eq_true_2 by done. rewrite Hx.
    rewrite (assert_property_value_lookup _ _ v) by done.
    by rewrite bool_decide_eq_false_2.
  - intros Hr Hx. rewrite bool_decide_eq_true_2 by done. rewrite Hx.
    rewrite (assert_property_value_lookup _ _ value) by done.
    by rewrite bool_decide_eq_true_2.
Qed.

(** X13: the replace scenario creates an image, sends an update adding
    [user_prop] and then one replacing its value.  It fails when either
    response is not 200 (the second update is not sent after a first
    failure), when [user_prop] is not among the additional properties of
    the last response, or when it is there with another value than the
    replacement, and passes otherwise. *)
Theorem test_update_image_replace_additional_property_spec
    (s0 s1 s2 s3 : S) (created updated : image) (r1 r2 : response) :
  let value := rand_name "new_prop_value" in
  let value' := rand_name "updated_new_prop_value" in
  let create := create_new_image_request in
  let add :=
    update_image_request (id_ created)
      (Some {[ "user_prop" := value ]}) None None in
  let replace :=
    update_image_request (id_ created)
      None None (Some {[ "user_prop" := value' ]}) in
  let outcome :=
    test_update_image_replace_additional_property client rand_name (s0, []) in
  create_new_image client s0 = (Return created, s1) →
  update_image client (id_ created) (Some {[ "user_prop" := value ]})
    None None s1 = (Return r1, s2) →
  update_image client (id_ created) None None
    (Some {[ "user_prop" := value' ]}) s2 = (Return r2, s3) →
  entity r2 = Some updated →
  (status_code r1 ≠ 200 →
   outcome = (Raise (AssertionError "assertEqual"), (s2, [create; add])))
  ∧ (status_code r1 = 200 → status_code r2 ≠ 200 →
     outcome
     = (Raise (AssertionError "assertEqual"), (s3, [create; add; replace])))
  ∧ (status_code r1 = 200 → status_code r2 = 200 →
     additional_properties updated !! "user_prop" = None →
     outcome
     = (Raise (AssertionError "assertIn"), (s3, [create; add; replace])))
  ∧ (∀ v, status_code r1 = 200 → status_code r2 = 200 →
          additional_properties updated !! "user_prop" = Some v →
          v ≠ value' →
          outcome
          = (Raise (AssertionError "assertEqual"),
             (s3, [create; add; replace])))
  ∧ (status_code r1 = 200 → status_code r2 = 200 →
     additional_properties updated !! "user_prop" = Some value' →
     outcome = (Return tt, (s3, [create; add; replace]))).
Proof.
  intros value value' create add replace outcome Hcreate Hadd Hreplace
    Hentity.
  subst outcome.
  unfold test_update_image_replace_additional_property, bind,
    images_behavior_create_new_image, images_client_update_image,
    assertEqual, assertIn, entity_additional_properties.
  fold value. fold value'. rewrite Hcreate. simpl. rewrite Hadd. simpl.
  repeat split.
  - intros H1. by rewrite bool_decide_eq_false_2.
  - intros H1 H2. rewrite bool_decide_eq_true_2 by done.
    rewrite Hreplace. simpl. by rewrite bool_decide_eq_false_2.
  - intros H1 H2 Hx. rewrite bool_decide_eq_true_2 by done.
    rewrite Hreplace. simpl. rewrite bool_decide_eq_true_2 by done.
    by rewrite Hentity, Hx.
  - intros v H1 H2 Hx Hv. rewrite bool_decide_eq_true_2 by done.
    rewrite Hreplace. simpl. rewrite bool_decide_eq_true_2 by done.
    rewrite Hentity, Hx.
    rewrite (assert_property_value_lookup _ _ v) by done.
    by rewrite bool_decide_eq_false_2.
  - intros H1 H2 Hx. rewrite bool_decide_eq_true_2 by done.
    rewrite Hreplace. simpl. rewrite bool_decide_eq_true_2 by done.
    rewrite Hentity, Hx.
    rewrite (assert_property_value_lookup _ _ value') by done.
    by rewrite bool_decide_eq_true_2.
Qed.

End Scenario.

(** Against the sample service both scenarios pass. *)
Lemma test_update_image_add_additional_property_witness :
  let patch : dict := {[ "user_prop" := "new_prop_value_4711" ]} in
  test_update_image_add_additional_property sample_client sample_rand_name
    (∅, [])
  = (Return tt,
     (patch, [create_new_image_request;
              update_image_request "image-1" (Some patch) None None])).
Proof.
  intros patch.
  edestruct (test_update_image_add_additional_property_spec sample_client
               sample_rand_name ∅) as (_ & _ & _ & Hpass);
    [reflexivity | reflexivity | reflexivity |].
  apply Hpass; reflexivity.
Defined.

Lemma test_update_image_replace_additional_property_witness :
  let patch : dict := {[ "user_prop" := "new_prop_value_4711" ]} in
  let patch' : dict := {[ "user_prop" := "updated_new_prop_value_4711" ]} in
  test_update_image_replace_additional_property sample_client
    sample_rand_name (∅, [])
  = (Return tt,
     (patch', [create_new_image_request;
               update_image_request "image-1" (Some patch) None None;
               update_image_request "image-1" None None (Some patch')])).
Proof.
  intros patch patch'.
  edestruct (test_update_image_replace_additional_property_spec sample_client
               sample_rand_name ∅) as (_ & _ & _ & _ & Hpass);
    [reflexivity | reflexivity | reflexivity | reflexivity |].
  apply Hpass; reflexivity.
Defined.

End ImagesMore.
